(** * vpc-pluralsight: the construct trees declared by the CDK stacks

    The repository is a CDK application: [bin/vpc-pluralsight.ts] creates an
    [App] and one [VpcPluralsightStack]; every constructor body is a
    straight-line sequence of construct instantiations
    ([new ec2.Vpc(this, "PublicVpc", {...})]) and of calls that adjust a
    construct already made ([applyRemovalPolicy], [addIngressRule], ...).

    The embedding follows that shape.  A constructor body is a computation in
    a small state-and-error monad whose state is the tree of constructs
    declared below [this]; the toolkit (aws-cdk-lib, which is not part of the
    repository) is a parameter that decides, at every instantiation, whether
    the call raises. *)

From Stdlib Require Import ZArith Lia Ascii String.
From stdpp Require Import base list strings.

Local Open Scope string_scope.
Local Open Scope list_scope.

(** ** Values written in the source *)

(** A construct is addressed by the ids on the way from [this] down to it. *)
Definition Path := list string.

(** The expressions that occur as property values: literals, enum members,
    references to a construct, member accesses ([publicVpc.vpcId]), array and
    object literals, and the value objects of the toolkit
    ([new ec2.InstanceType("t2.micro")], [ec2.Peer.ipv4("10.0.0.0/8")]). *)
#[local] Unset Elimination Schemes.
Inductive Value : Type :=
| VStr (s : string)
| VNum (n : Z)
| VBool (b : bool)
| VEnum (name : string)
| VRef (p : Path)
| VMember (base : Value) (member : string)
| VArr (items : list Value)
| VObj (fields : list (string * Value))
| VNew (cls : string) (args : list Value)
| VCall (fn : string) (args : list Value).
#[local] Set Elimination Schemes.

Definition Props := list (string * Value).

(** Reading a field of an object literal. *)
Fixpoint field (k : string) (ps : Props) : option Value :=
  match ps with
  | [] => None
  | (k', v) :: rest => if String.eqb k k' then Some v else field k rest
  end.

Definition is_literal (v : Value) : bool :=
  match v with VStr _ => true | _ => false end.

(** ** Constructs *)

(** The construct classes instantiated somewhere in the repository. *)
Inductive Kind : Type :=
| Vpc | Subnet | CfnRouteTable | CfnSubnetRouteTableAssociation
| CfnInternetGateway | CfnVPCGatewayAttachment | CfnRoute | SecurityGroup
| CfnKeyPair | Instance | CfnEIP | CfnEIPAssociation
| CfnVPCPeeringConnection | Role | LogGroup | FlowLog
| VpnGateway | VpnConnection | CfnVPNGatewayRoutePropagation
| CfnCustomerGateway | TransitVpcConstructKind.

Definition Kind_eqb (a b : Kind) : bool :=
  match a, b with
  | Vpc, Vpc | Subnet, Subnet | CfnRouteTable, CfnRouteTable
  | CfnSubnetRouteTableAssociation, CfnSubnetRouteTableAssociation
  | CfnInternetGateway, CfnInternetGateway
  | CfnVPCGatewayAttachment, CfnVPCGatewayAttachment
  | CfnRoute, CfnRoute | SecurityGroup, SecurityGroup
  | CfnKeyPair, CfnKeyPair | Instance, Instance | CfnEIP, CfnEIP
  | CfnEIPAssociation, CfnEIPAssociation
  | CfnVPCPeeringConnection, CfnVPCPeeringConnection
  | Role, Role | LogGroup, LogGroup | FlowLog, FlowLog
  | VpnGateway, VpnGateway | VpnConnection, VpnConnection
  | CfnVPNGatewayRoutePropagation, CfnVPNGatewayRoutePropagation
  | CfnCustomerGateway, CfnCustomerGateway
  | TransitVpcConstructKind, TransitVpcConstructKind => true
  | _, _ => false
  end.

#[global] Instance Kind_eq_dec : EqDecision Kind.
Proof. solve_decision. Defined.

Inductive RemovalPolicy : Type := DESTROY | RETAIN | SNAPSHOT.

(** One instantiation [new K(scope, id, props)]. *)
Record Call : Type := mkCall {
  call_scope : Path;
  call_kind : Kind;
  call_id : string;
  call_props : Props
}.

(** [sg.addIngressRule(peer, port, description)] *)
Record IngressRule : Type := mkIngress {
  ing_peer : Value;
  ing_port : Value;
  ing_description : string
}.

(** A construct in the tree: the instantiation that made it and what later
    statements attached to it. *)
Record Node : Type := mkNode {
  n_decl : Call;
  n_removal : option RemovalPolicy;
  n_ingress : list IngressRule;
  n_policy : list Value
}.

Definition node_path (n : Node) : Path :=
  call_scope (n_decl n) ++ [call_id (n_decl n)].

(** The state of a running constructor: the constructs below [this], in
    declaration order, and every instantiation attempted so far. *)
Record Tree : Type := mkTree {
  nodes : list Node;
  log : list Call
}.

Definition empty_tree : Tree := mkTree [] [].

Definition headers (t : Tree) : list Call := map n_decl (nodes t).

Definition call_key (c : Call) : Path * string := (call_scope c, call_id c).

(** ** The toolkit and the monad *)

(** What the repository does not contain: whether the toolkit accepts an
    instantiation, given the tree built so far. *)
Definition Toolkit := Tree -> Call -> bool.

Definition accept_all : Toolkit := fun _ _ => false.

Inductive Error : Type := Raised (c : Call).

(** A statement runs against the toolkit and the tree; an error keeps the
    tree as it was when the error was raised, as a thrown exception leaves
    the objects mutated before it. *)
Definition M (A : Type) : Type := Toolkit -> Tree -> Tree * (Error + A).

Definition ret {A} (a : A) : M A := fun _ t => (t, inr a).

Definition bind {A B} (m : M A) (f : A -> M B) : M B :=
  fun tk t =>
    match m tk t with
    | (t', inl e) => (t', inl e)
    | (t', inr a) => f a tk t'
    end.

Declare Scope cdk_scope.
Delimit Scope cdk_scope with cdk.
Notation "x <- m ;; k" := (bind m (fun x => k))
  (at level 100, m at next level, right associativity) : cdk_scope.
Notation "m ;; k" := (bind m (fun _ => k))
  (at level 100, right associativity) : cdk_scope.

(** [new K(scope, id, props)]: the attempt is logged; when the toolkit raises,
    the exception leaves the constructor and nothing is added; otherwise the
    construct becomes the last child and the expression evaluates to it. *)
Definition new_ (k : Kind) (scope : Path) (id : string) (props : Props) : M Value :=
  fun tk t =>
    let c := mkCall scope k id props in
    let t' := mkTree (nodes t) (log t ++ [c]) in
    if tk t c then (t', inl (Raised c))
    else (mkTree (nodes t ++ [mkNode c None [] []]) (log t'), inr (VRef (scope ++ [id]))).

Definition path_of (v : Value) : Path :=
  match v with VRef p => p | _ => [] end.

Definition Path_eqb (p q : Path) : bool := bool_decide (p = q).

(** Adjusting the construct that a variable refers to. *)
Definition update_node (target : Value) (f : Node -> Node) (t : Tree) : Tree :=
  mkTree
    (map (fun n => if Path_eqb (node_path n) (path_of target) then f n else n) (nodes t))
    (log t).

Definition applyRemovalPolicy (target : Value) (p : RemovalPolicy) : M unit :=
  fun _ t =>
    (update_node target
       (fun n => mkNode (n_decl n) (Some p) (n_ingress n) (n_policy n)) t,
     inr tt).

Definition addIngressRule (target peer port : Value) (description : string) : M unit :=
  fun _ t =>
    (update_node target
       (fun n => mkNode (n_decl n) (n_removal n)
                   (n_ingress n ++ [mkIngress peer port description]) (n_policy n)) t,
     inr tt).

Definition addToPolicy (target statement : Value) : M unit :=
  fun _ t =>
    (update_node target
       (fun n => mkNode (n_decl n) (n_removal n) (n_ingress n)
                   (n_policy n ++ [statement])) t,
     inr tt).

(** [vpc.addFlowLog(id, options)] instantiates a [FlowLog] whose scope is the
    VPC and whose resource type is that VPC. *)
Definition addFlowLog (vpc : Value) (id : string) (options : Props) : M Value :=
  new_ FlowLog (path_of vpc) id
       (("resourceType", VCall "FlowLogResourceType.fromVpc" [vpc]) :: options).

(** [this] inside a constructor body. *)
Definition this : Path := [].

(** ** Stacks and the scope they are created in *)

(** [super(scope, id, props)] of a [Stack] registers the stack below [scope];
    the statements of the constructor then fill the stack's own tree. *)
Record StackNode : Type := mkStack {
  st_id : string;
  st_props : option Props;
  st_tree : Tree
}.

Definition Scope := list StackNode.

Definition Stack_constructor (body : M unit) (tk : Toolkit)
    (scope : Scope) (id : string) (props : option Props) : Scope * (Error + unit) :=
  let '(t, r) := body tk empty_tree in
  (scope ++ [mkStack id props t], r).

Local Open Scope cdk_scope.

(** ** src/unnamed/part_002: the public VPC and its internet access *)
Module Part002.

Definition constructor : M unit :=
  (* Create a VPC to act as public facing part of infra *)
  publicVpc <- new_ Vpc this "PublicVpc"
    [("vpcName", VStr "web-vpc");
     ("cidr", VStr "10.1.0.0/16");
     ("subnetConfiguration", VArr [])] ;;
  applyRemovalPolicy publicVpc DESTROY ;;
  (* Create a public subnet which holds the public facing parts of a web app *)
  publicSubnet <- new_ Subnet this "PublicSubnet"
    [("vpcId", VMember publicVpc "vpcId");
     ("availabilityZone", VStr "eu-west-1a");
     ("cidrBlock", VStr "10.1.254.0/24")] ;;
  applyRemovalPolicy publicSubnet DESTROY ;;
  (* Create a route table tied to the public VPC *)
  publicRouteTable <- new_ CfnRouteTable this "PublicRouteTable"
    [("vpcId", VMember publicVpc "vpcId")] ;;
  applyRemovalPolicy publicRouteTable DESTROY ;;
  publicSubnetRouteTableAssociation <-
    new_ CfnSubnetRouteTableAssociation this "PublicRouteTableSubnetAssociation"
      [("subnetId", VMember publicSubnet "subnetId");
       ("routeTableId", VMember publicRouteTable "attrRouteTableId")] ;;
  applyRemovalPolicy publicSubnetRouteTableAssociation DESTROY ;;
  (* Create an internet gateway for the public VPC *)
  publicInternetGateway <- new_ CfnInternetGateway this "PublicInternetGateway" [] ;;
  applyRemovalPolicy publicInternetGateway DESTROY ;;
  publicVpcIgwAttachment <- new_ CfnVPCGatewayAttachment this "PublicVpcIgwAttachment"
    [("vpcId", VMember publicVpc "vpcId");
     ("internetGatewayId", VMember publicInternetGateway "attrInternetGatewayId")] ;;
  applyRemovalPolicy publicVpcIgwAttachment DESTROY ;;
  (* cidr block 0.0.0.0/0: all IPV4 traffic *)
  route <- new_ CfnRoute this "PublicInternetAccessRoute"
    [("routeTableId", VMember publicRouteTable "attrRouteTableId");
     ("destinationCidrBlock", VStr "0.0.0.0/0");
     ("gatewayId", VMember publicInternetGateway "attrInternetGatewayId")] ;;
  applyRemovalPolicy route DESTROY.

Definition VpcPluralsightStack := Stack_constructor constructor.

End Part002.

(** ** src/unnamed/part_001: adds the security group and the public instance *)
Module Part001.

Definition constructor : M unit :=
  (* Create a VPC to act as public facing part of infra *)
  publicVpc <- new_ Vpc this "PublicVpc"
    [("vpcName", VStr "web-vpc");
     ("cidr", VStr "10.1.0.0/16");
     ("subnetConfiguration", VArr [])] ;;
  applyRemovalPolicy publicVpc DESTROY ;;
  (* Create a public subnet which holds the public facing parts of a web app *)
  publicSubnet <- new_ Subnet this "PublicSubnet"
    [("vpcId", VMember publicVpc "vpcId");
     ("availabilityZone", VStr "eu-west-1a");
     ("cidrBlock", VStr "10.1.254.0/24")] ;;
  applyRemovalPolicy publicSubnet DESTROY ;;
  (* Create a route table tied to the public VPC *)
  publicRouteTable <- new_ CfnRouteTable this "PublicRouteTable"
    [("vpcId", VMember publicVpc "vpcId")] ;;
  applyRemovalPolicy publicRouteTable DESTROY ;;
  publicSubnetRouteTableAssociation <-
    new_ CfnSubnetRouteTableAssociation this "PublicRouteTableSubnetAssociation1"
      [("subnetId", VMember publicSubnet "subnetId");
       ("routeTableId", VMember publicRouteTable "attrRouteTableId")] ;;
  applyRemovalPolicy publicSubnetRouteTableAssociation DESTROY ;;
  (* Create an internet gateway for the public VPC *)
  publicInternetGateway <- new_ CfnInternetGateway this "PublicInternetGateway" [] ;;
  applyRemovalPolicy publicInternetGateway DESTROY ;;
  publicVpcIgwAttachment <- new_ CfnVPCGatewayAttachment this "PublicVpcIgwAttachment"
    [("vpcId", VMember publicVpc "vpcId");
     ("internetGatewayId", VMember publicInternetGateway "attrInternetGatewayId")] ;;
  applyRemovalPolicy publicVpcIgwAttachment DESTROY ;;
  (* cidr block 0.0.0.0/0: all IPV4 traffic *)
  route <- new_ CfnRoute this "PublicInternetAccessRoute"
    [("routeTableId", VMember publicRouteTable "attrRouteTableId");
     ("destinationCidrBlock", VStr "0.0.0.0/0");
     ("gatewayId", VMember publicInternetGateway "attrInternetGatewayId")] ;;
  applyRemovalPolicy route DESTROY ;;
  (* Security group attached to the public facing VPC *)
  publicSecurityGroup <- new_ SecurityGroup this "PublicSecurityGroup"
    [("vpc", publicVpc);
     ("securityGroupName", VStr "web-pub-sg");
     ("description", VStr "Public VPC security group");
     ("allowAllOutbound", VBool true)] ;;
  applyRemovalPolicy publicSecurityGroup DESTROY ;;
  addIngressRule publicSecurityGroup
    (VCall "ec2.Peer.ipv4" [VStr "24.96.0.0/16"])
    (VCall "ec2.Port.tcp" [VNum 22])
    "SSH access from IP range 24.96.0.0/16" ;;
  addIngressRule publicSecurityGroup
    (VCall "ec2.Peer.anyIpv4" [])
    (VCall "ec2.Port.tcp" [VNum 80])
    "Allow access into this public VPC from any ipv4 address" ;;
  addIngressRule publicSecurityGroup
    (VCall "ec2.Peer.anyIpv6" [])
    (VCall "ec2.Port.tcp" [VNum 80])
    "Allow access into this public VPC from any ipv6 address" ;;
  (* Create a keypair to allow SSH access to a running EC2 instance *)
  sshKeyPair <- new_ CfnKeyPair this "ssh-keypair"
    [("keyName", VStr "public-ssh-key-pair")] ;;
  applyRemovalPolicy sshKeyPair DESTROY ;;
  publicEc2Instance <- new_ Instance this "public-ec2-instance"
    [("vpc", publicVpc);
     ("keyName", VMember sshKeyPair "keyName");
     ("vpcSubnets", VObj [("subnets", VArr [publicSubnet])]);
     ("privateIpAddress", VStr "10.1.254.10");
     ("instanceType", VNew "ec2.InstanceType" [VStr "t2.micro"]);
     ("machineImage", VCall "ec2.MachineImage.latestAmazonLinux" []);
     ("instanceName", VStr "public-ec2-instance");
     ("securityGroup", publicSecurityGroup)] ;;
  applyRemovalPolicy publicEc2Instance DESTROY ;;
  (* Elastic IP associated to the EC2 instance of the public VPC *)
  publicIpv4Address <- new_ CfnEIP this "public-elastic-ip" [] ;;
  applyRemovalPolicy publicIpv4Address DESTROY ;;
  publicElasticIpVpcAssociation <-
    new_ CfnEIPAssociation this "public-elastic-ip-network-interface-assc"
      [("instanceId", VMember publicEc2Instance "instanceId");
       ("allocationId", VMember publicIpv4Address "attrAllocationId")] ;;
  applyRemovalPolicy publicElasticIpVpcAssociation DESTROY.

Definition VpcPluralsightStack := Stack_constructor constructor.

End Part001.

(** ** src/lib/vpc-pluralsight-stack.ts: adds the shared VPC and the database *)
Module LibStack.

Definition constructor : M unit :=
  (* Create a VPC to act as public facing part of infra *)
  publicVpc <- new_ Vpc this "PublicVpc"
    [("vpcName", VStr "web-vpc");
     ("cidr", VStr "10.1.0.0/16");
     ("subnetConfiguration", VArr [])] ;;
  applyRemovalPolicy publicVpc DESTROY ;;
  (* Create a public subnet which holds the public facing parts of a web app *)
  publicSubnet <- new_ Subnet this "PublicSubnet"
    [("vpcId", VMember publicVpc "vpcId");
     ("availabilityZone", VStr "eu-west-1a");
     ("cidrBlock", VStr "10.1.254.0/24")] ;;
  applyRemovalPolicy publicSubnet DESTROY ;;
  (* Create a route table tied to the public VPC *)
  publicRouteTable <- new_ CfnRouteTable this "PublicRouteTable"
    [("vpcId", VMember publicVpc "vpcId")] ;;
  applyRemovalPolicy publicRouteTable DESTROY ;;
  publicSubnetRouteTableAssociation <-
    new_ CfnSubnetRouteTableAssociation this "PublicRouteTableSubnetAssociation1"
      [("subnetId", VMember publicSubnet "subnetId");
       ("routeTableId", VMember publicRouteTable "attrRouteTableId")] ;;
  applyRemovalPolicy publicSubnetRouteTableAssociation DESTROY ;;
  (* Create an internet gateway for the public VPC *)
  publicInternetGateway <- new_ CfnInternetGateway this "PublicInternetGateway" [] ;;
  applyRemovalPolicy publicInternetGateway DESTROY ;;
  publicVpcIgwAttachment <- new_ CfnVPCGatewayAttachment this "PublicVpcIgwAttachment"
    [("vpcId", VMember publicVpc "vpcId");
     ("internetGatewayId", VMember publicInternetGateway "attrInternetGatewayId")] ;;
  applyRemovalPolicy publicVpcIgwAttachment DESTROY ;;
  (* cidr block 0.0.0.0/0: all IPV4 traffic *)
  route <- new_ CfnRoute this "PublicInternetAccessRoute"
    [("routeTableId", VMember publicRouteTable "attrRouteTableId");
     ("destinationCidrBlock", VStr "0.0.0.0/0");
     ("gatewayId", VMember publicInternetGateway "attrInternetGatewayId")] ;;
  applyRemovalPolicy route DESTROY ;;
  (* Security group attached to the public facing VPC *)
  publicSecurityGroup <- new_ SecurityGroup this "PublicSecurityGroup"
    [("vpc", publicVpc);
     ("securityGroupName", VStr "web-pub-sg");
     ("description", VStr "Public VPC security group");
     ("allowAllOutbound", VBool true)] ;;
  applyRemovalPolicy publicSecurityGroup DESTROY ;;
  addIngressRule publicSecurityGroup
    (VCall "ec2.Peer.ipv4" [VStr "24.96.0.0/16"])
    (VCall "ec2.Port.tcp" [VNum 22])
    "SSH access from IP range 24.96.0.0/16" ;;
  addIngressRule publicSecurityGroup
    (VCall "ec2.Peer.anyIpv4" [])
    (VCall "ec2.Port.tcp" [VNum 80])
    "Allow access into this public VPC from any ipv4 address" ;;
  addIngressRule publicSecurityGroup
    (VCall "ec2.Peer.anyIpv6" [])
    (VCall "ec2.Port.tcp" [VNum 80])
    "Allow access into this public VPC from any ipv6 address" ;;
  (* Create a keypair to allow SSH access to a running EC2 instance *)
  sshKeyPair <- new_ CfnKeyPair this "ssh-keypair"
    [("keyName", VStr "public-ssh-key-pair")] ;;
  applyRemovalPolicy sshKeyPair DESTROY ;;
  publicEc2Instance <- new_ Instance this "public-ec2-instance"
    [("vpc", publicVpc);
     ("keyName", VMember sshKeyPair "keyName");
     ("vpcSubnets", VObj [("subnets", VArr [publicSubnet])]);
     ("privateIpAddress", VStr "10.1.254.10");
     ("instanceType", VNew "ec2.InstanceType" [VStr "t2.micro"]);
     ("machineImage", VCall "ec2.MachineImage.latestAmazonLinux" []);
     ("instanceName", VStr "public-ec2-instance");
     ("securityGroup", publicSecurityGroup)] ;;
  applyRemovalPolicy publicEc2Instance DESTROY ;;
  (* Elastic IP associated to the EC2 instance of the public VPC *)
  publicIpv4Address <- new_ CfnEIP this "public-elastic-ip" [] ;;
  applyRemovalPolicy publicIpv4Address DESTROY ;;
  publicElasticIpVpcAssociation <-
    new_ CfnEIPAssociation this "public-elastic-ip-network-interface-assc"
      [("instanceId", VMember publicEc2Instance "instanceId");
       ("allocationId", VMember publicIpv4Address "attrAllocationId")] ;;
  applyRemovalPolicy publicElasticIpVpcAssociation DESTROY ;;
  (* Create a VPC to act as shared private part of infra *)
  sharedVpc <- new_ Vpc this "SharedVpc"
    [("vpcName", VStr "shared-vpc");
     ("cidr", VStr "10.2.0.0/16");
     ("subnetConfiguration", VArr [])] ;;
  applyRemovalPolicy sharedVpc DESTROY ;;
  (* Create a subnet which holds the private database *)
  databaseSubnet <- new_ Subnet this "DatabaseSubnet"
    [("vpcId", VMember sharedVpc "vpcId");
     ("availabilityZone", VStr "eu-west-1a");
     ("cidrBlock", VStr "10.2.2.0/24")] ;;
  applyRemovalPolicy databaseSubnet DESTROY ;;
  (* Create a route table tied to the shared VPC *)
  sharedVpcRouteTable <- new_ CfnRouteTable this "SharedRouteTable"
    [("vpcId", VMember sharedVpc "vpcId")] ;;
  applyRemovalPolicy sharedVpcRouteTable DESTROY ;;
  sharedSubnetRouteTableAssociation <-
    new_ CfnSubnetRouteTableAssociation this "SharedRouteTableSubnetAssociation"
      [("subnetId", VMember databaseSubnet "subnetId");
       ("routeTableId", VMember sharedVpcRouteTable "attrRouteTableId")] ;;
  applyRemovalPolicy sharedSubnetRouteTableAssociation DESTROY ;;
  (* Security group attached to the database instance *)
  databaseSecurityGroup <- new_ SecurityGroup this "DatabaseSecurityGroup"
    [("vpc", sharedVpc);
     ("securityGroupName", VStr "database-sg");
     ("description", VStr "Database security group");
     ("allowAllOutbound", VBool true)] ;;
  applyRemovalPolicy databaseSecurityGroup DESTROY ;;
  addIngressRule databaseSecurityGroup
    (VCall "ec2.Peer.ipv4" [VStr "192.168.0.0/16"])
    (VCall "ec2.Port.tcp" [VNum 22])
    "SSH access from IP range 192.168.0.0/16" ;;
  addIngressRule databaseSecurityGroup
    (VCall "ec2.Peer.ipv4" [VStr "10.2.0.0/16"])
    (VCall "ec2.Port.tcp" [VNum 22])
    "SSH access from IP range 10.2.0.0/16" ;;
  addIngressRule databaseSecurityGroup
    (VCall "ec2.Peer.ipv4" [VStr "10.1.254.0/24"])
    (VCall "ec2.Port.tcp" [VNum 3306])
    "MySQL access from public subnet into database instance" ;;
  addIngressRule databaseSecurityGroup
    (VCall "ec2.Peer.anyIpv4" [])
    (VCall "ec2.Port.icmpPing" [])
    "Allow ICMP ping from any ipv4" ;;
  (* Instance representing database running in AWS *)
  databaseEc2Instance <- new_ Instance this "database-ec2-instance"
    [("vpc", sharedVpc);
     ("keyName", VMember sshKeyPair "keyName");
     ("vpcSubnets", VObj [("subnets", VArr [databaseSubnet])]);
     ("privateIpAddress", VStr "10.2.2.41");
     ("instanceType", VNew "ec2.InstanceType" [VStr "t2.micro"]);
     ("machineImage", VCall "ec2.MachineImage.latestAmazonLinux" []);
     ("instanceName", VStr "database-ec2-instance");
     ("securityGroup", databaseSecurityGroup)] ;;
  applyRemovalPolicy databaseEc2Instance DESTROY.

Definition VpcPluralsightStack := Stack_constructor constructor.

End LibStack.

(** ** src/unnamed/part_003: adds peering, the NAT instance and flow logs *)
Module Part003.

Definition constructor : M unit :=
  (* Create a VPC to act as public facing part of infra *)
  publicVpc <- new_ Vpc this "PublicVpc"
    [("vpcName", VStr "web-vpc");
     ("cidr", VStr "10.1.0.0/16");
     ("subnetConfiguration", VArr [])] ;;
  applyRemovalPolicy publicVpc DESTROY ;;
  (* Create a public subnet which holds the public facing parts of a web app *)
  publicSubnet <- new_ Subnet this "PublicSubnet"
    [("vpcId", VMember publicVpc "vpcId");
     ("availabilityZone", VStr "eu-west-1a");
     ("cidrBlock", VStr "10.1.254.0/24")] ;;
  applyRemovalPolicy publicSubnet DESTROY ;;
  (* Create a route table tied to the public VPC *)
  publicRouteTable <- new_ CfnRouteTable this "PublicRouteTable"
    [("vpcId", VMember publicVpc "vpcId")] ;;
  applyRemovalPolicy publicRouteTable DESTROY ;;
  publicSubnetRouteTableAssociation <-
    new_ CfnSubnetRouteTableAssociation this "PublicRouteTableSubnetAssociation1"
      [("subnetId", VMember publicSubnet "subnetId");
       ("routeTableId", VMember publicRouteTable "attrRouteTableId")] ;;
  applyRemovalPolicy publicSubnetRouteTableAssociation DESTROY ;;
  (* Create an internet gateway for the public VPC *)
  publicInternetGateway <- new_ CfnInternetGateway this "PublicInternetGateway" [] ;;
  applyRemovalPolicy publicInternetGateway DESTROY ;;
  publicVpcIgwAttachment <- new_ CfnVPCGatewayAttachment this "PublicVpcIgwAttachment"
    [("vpcId", VMember publicVpc "vpcId");
     ("internetGatewayId", VMember publicInternetGateway "attrInternetGatewayId")] ;;
  applyRemovalPolicy publicVpcIgwAttachment DESTROY ;;
  (* cidr block 0.0.0.0/0: all IPV4 traffic *)
  route <- new_ CfnRoute this "PublicInternetAccessRoute"
    [("routeTableId", VMember publicRouteTable "attrRouteTableId");
     ("destinationCidrBlock", VStr "0.0.0.0/0");
     ("gatewayId", VMember publicInternetGateway "attrInternetGatewayId")] ;;
  applyRemovalPolicy route DESTROY ;;
  (* Security group attached to the public facing VPC *)
  publicSecurityGroup <- new_ SecurityGroup this "PublicSecurityGroup"
    [("vpc", publicVpc);
     ("securityGroupName", VStr "web-pub-sg");
     ("description", VStr "Public VPC security group");
     ("allowAllOutbound", VBool true)] ;;
  applyRemovalPolicy publicSecurityGroup DESTROY ;;
  addIngressRule publicSecurityGroup
    (VCall "ec2.Peer.ipv4" [VStr "24.96.0.0/16"])
    (VCall "ec2.Port.tcp" [VNum 22])
    "SSH access from IP range 24.96.0.0/16" ;;
  addIngressRule publicSecurityGroup
    (VCall "ec2.Peer.anyIpv4" [])
    (VCall "ec2.Port.tcp" [VNum 80])
    "Allow access into this public VPC from any ipv4 address" ;;
  addIngressRule publicSecurityGroup
    (VCall "ec2.Peer.anyIpv6" [])
    (VCall "ec2.Port.tcp" [VNum 80])
    "Allow access into this public VPC from any ipv6 address" ;;
  (* Create a keypair to allow SSH access to a running EC2 instance *)
  sshKeyPair <- new_ CfnKeyPair this "ssh-keypair"
    [("keyName", VStr "public-ssh-key-pair")] ;;
  applyRemovalPolicy sshKeyPair DESTROY ;;
  publicEc2Instance <- new_ Instance this "public-ec2-instance"
    [("vpc", publicVpc);
     ("keyName", VMember sshKeyPair "keyName");
     ("vpcSubnets", VObj [("subnets", VArr [publicSubnet])]);
     ("privateIpAddress", VStr "10.1.254.10");
     ("instanceType", VNew "ec2.InstanceType" [VStr "t2.micro"]);
     ("machineImage", VCall "ec2.MachineImage.latestAmazonLinux" []);
     ("instanceName", VStr "public-ec2-instance");
     ("securityGroup", publicSecurityGroup)] ;;
  applyRemovalPolicy publicEc2Instance DESTROY ;;
  (* Elastic IP associated to the EC2 instance of the public VPC *)
  publicIpv4Address <- new_ CfnEIP this "public-elastic-ip" [] ;;
  applyRemovalPolicy publicIpv4Address DESTROY ;;
  publicElasticIpVpcAssociation <-
    new_ CfnEIPAssociation this "public-elastic-ip-network-interface-assc"
      [("instanceId", VMember publicEc2Instance "instanceId");
       ("allocationId", VMember publicIpv4Address "attrAllocationId")] ;;
  applyRemovalPolicy publicElasticIpVpcAssociation DESTROY ;;
  (* Create a VPC to act as shared private part of infra *)
  sharedVpc <- new_ Vpc this "SharedVpc"
    [("vpcName", VStr "shared-vpc");
     ("cidr", VStr "10.2.0.0/16");
     ("subnetConfiguration", VArr [])] ;;
  applyRemovalPolicy sharedVpc DESTROY ;;
  (* Create a subnet which holds the private database *)
  databaseSubnet <- new_ Subnet this "DatabaseSubnet"
    [("vpcId", VMember sharedVpc "vpcId");
     ("availabilityZone", VStr "eu-west-1a");
     ("cidrBlock", VStr "10.2.2.0/24")] ;;
  applyRemovalPolicy databaseSubnet DESTROY ;;
  (* Create a route table tied to the shared VPC *)
  sharedVpcRouteTable <- new_ CfnRouteTable this "SharedRouteTable"
    [("vpcId", VMember sharedVpc "vpcId")] ;;
  applyRemovalPolicy sharedVpcRouteTable DESTROY ;;
  sharedSubnetRouteTableAssociation <-
    new_ CfnSubnetRouteTableAssociation this "SharedRouteTableSubnetAssociation"
      [("subnetId", VMember databaseSubnet "subnetId");
       ("routeTableId", VMember sharedVpcRouteTable "attrRouteTableId")] ;;
  applyRemovalPolicy sharedSubnetRouteTableAssociation DESTROY ;;
  (* Security group attached to the database instance *)
  databaseSecurityGroup <- new_ SecurityGroup this "DatabaseSecurityGroup"
    [("vpc", sharedVpc);
     ("securityGroupName", VStr "database-sg");
     ("description", VStr "Database security group");
     ("allowAllOutbound", VBool true)] ;;
  applyRemovalPolicy databaseSecurityGroup DESTROY ;;
  addIngressRule databaseSecurityGroup
    (VCall "ec2.Peer.ipv4" [VStr "192.168.0.0/16"])
    (VCall "ec2.Port.tcp" [VNum 22])
    "SSH access from IP range 192.168.0.0/16" ;;
  addIngressRule databaseSecurityGroup
    (VCall "ec2.Peer.ipv4" [VStr "10.2.0.0/16"])
    (VCall "ec2.Port.tcp" [VNum 22])
    "SSH access from IP range 10.2.0.0/16" ;;
  addIngressRule databaseSecurityGroup
    (VCall "ec2.Peer.ipv4" [VStr "10.1.254.0/24"])
    (VCall "ec2.Port.tcp" [VNum 3306])
    "MySQL access from public subnet into database instance" ;;
  addIngressRule databaseSecurityGroup
    (VCall "ec2.Peer.anyIpv4" [])
    (VCall "ec2.Port.icmpPing" [])
    "Allow ICMP ping from any ipv4" ;;
  (* Instance representing database running in AWS *)
  databaseEc2Instance <- new_ Instance this "database-ec2-instance"
    [("vpc", sharedVpc);
     ("keyName", VMember sshKeyPair "keyName");
     ("vpcSubnets", VObj [("subnets", VArr [databaseSubnet])]);
     ("privateIpAddress", VStr "10.2.2.41");
     ("instanceType", VNew "ec2.InstanceType" [VStr "t2.micro"]);
     ("machineImage", VCall "ec2.MachineImage.latestAmazonLinux" []);
     ("instanceName", VStr "database-ec2-instance");
     ("securityGroup", databaseSecurityGroup)] ;;
  applyRemovalPolicy databaseEc2Instance DESTROY ;;
  (* Create peering connection between the two VPCs *)
  vpcPeeringConnection <- new_ CfnVPCPeeringConnection this "PCX"
    [("vpcId", VMember publicVpc "vpcId");
     ("peerVpcId", VMember sharedVpc "vpcId");
     ("tags", VArr [VObj [("key", VStr "Name"); ("value", VStr "web-shared-pcx")]])] ;;
  applyRemovalPolicy vpcPeeringConnection DESTROY ;;
  publicRouteTablePeeringRoute <- new_ CfnRoute this "public-route-table-peering-route"
    [("routeTableId", VMember publicRouteTable "attrRouteTableId");
     ("destinationCidrBlock", VStr "10.2.2.0/24");
     ("vpcPeeringConnectionId", VMember vpcPeeringConnection "peerOwnerId")] ;;
  applyRemovalPolicy publicRouteTablePeeringRoute DESTROY ;;
  sharedRouteTablePeeringRoute <- new_ CfnRoute this "shared-route-table-peering-route"
    [("routeTableId", VMember sharedVpcRouteTable "attrRouteTableId");
     ("destinationCidrBlock", VStr "10.1.254.0/24");
     ("vpcPeeringConnectionId", VMember vpcPeeringConnection "peerOwnerId")] ;;
  applyRemovalPolicy sharedRouteTablePeeringRoute DESTROY ;;
  sharedInternetGateway <- new_ CfnInternetGateway this "shared-igw"
    [("tags", VArr [VObj [("key", VStr "Name"); ("value", VStr "shared-igw")]])] ;;
  applyRemovalPolicy sharedInternetGateway DESTROY ;;
  sharedVpcIgwAttachment <- new_ CfnVPCGatewayAttachment this "SharedVpcIgwAttachment"
    [("vpcId", VMember sharedVpc "vpcId");
     ("internetGatewayId", VMember sharedInternetGateway "attrInternetGatewayId")] ;;
  applyRemovalPolicy sharedVpcIgwAttachment DESTROY ;;
  natSubnet <- new_ Subnet this "shared-nat-subnet"
    [("vpcId", VMember sharedVpc "vpcId");
     ("availabilityZone", VStr "eu-west-1a");
     ("cidrBlock", VStr "10.2.254.0/24")] ;;
  applyRemovalPolicy natSubnet DESTROY ;;
  natRouteTable <- new_ CfnRouteTable this "nat-pub-route-table"
    [("vpcId", VMember sharedVpc "vpcId");
     ("tags", VArr [VObj [("key", VStr "Name"); ("value", VStr "nat-pub")]])] ;;
  applyRemovalPolicy natRouteTable DESTROY ;;
  defaultNatRoute <- new_ CfnRoute this "default-nat-route"
    [("routeTableId", VMember natRouteTable "attrRouteTableId");
     ("destinationCidrBlock", VStr "0.0.0.0/0");
     ("gatewayId", VMember sharedInternetGateway "attrInternetGatewayId")] ;;
  applyRemovalPolicy defaultNatRoute DESTROY ;;
  natSubnetRouteTableAssociation <-
    new_ CfnSubnetRouteTableAssociation this "NATRouteTableSubnetAssociation"
      [("subnetId", VMember natSubnet "subnetId");
       ("routeTableId", VMember natRouteTable "attrRouteTableId")] ;;
  applyRemovalPolicy natSubnetRouteTableAssociation DESTROY ;;
  natSecurityGroup <- new_ SecurityGroup this "nat-security-group"
    [("vpc", sharedVpc);
     ("securityGroupName", VStr "NAT instance");
     ("description", VStr "Security group for NAT instance")] ;;
  applyRemovalPolicy natSecurityGroup DESTROY ;;
  addIngressRule natSecurityGroup
    (VCall "ec2.Peer.ipv4" [VStr "24.96.0.0/16"])
    (VCall "ec2.Port.tcp" [VNum 22])
    "Allow SSH access from ip range 24.96.0.0/16" ;;
  addIngressRule natSecurityGroup
    (VCall "ec2.Peer.ipv4" [VStr "10.0.0.0/8"])
    (VCall "ec2.Port.allTraffic" [])
    "Allow 10.0.0.0/8 to access all traffic" ;;
  addIngressRule natSecurityGroup
    (VCall "ec2.Peer.ipv4" [VStr "192.168.0.0/16"])
    (VCall "ec2.Port.allTraffic" [])
    "Allow 192.168.0.0/16 to access all traffic" ;;
  (* NAT instance, following the course *)
  natEc2Instance <- new_ Instance this "nat-ec2-instance"
    [("vpc", sharedVpc);
     ("keyName", VMember sshKeyPair "keyName");
     ("vpcSubnets", VObj [("subnets", VArr [natSubnet])]);
     ("privateIpAddress", VStr "10.2.254.254");
     ("instanceType", VNew "ec2.InstanceType" [VStr "t2.micro"]);
     ("machineImage", VNew "ec2.NatInstanceImage" []);
     ("instanceName", VStr "nat-ec2-instance");
     ("securityGroup", natSecurityGroup)] ;;
  applyRemovalPolicy natEc2Instance DESTROY ;;
  natEip <- new_ CfnEIP this "nat-eip"
    [("instanceId", VMember natEc2Instance "instanceId")] ;;
  applyRemovalPolicy natEip DESTROY ;;
  sharedDefaultRoute <- new_ CfnRoute this "shared-default-route"
    [("routeTableId", VMember sharedVpcRouteTable "attrRouteTableId");
     ("destinationCidrBlock", VStr "0.0.0.0/0");
     ("instanceId", VMember natEc2Instance "instanceId")] ;;
  applyRemovalPolicy sharedDefaultRoute DESTROY ;;
  (* Use of TransitVpcConstruct would go here; it is unused. *)
  (* VPC flow logs, saved to cloudwatch *)
  logsIamRole <- new_ Role this "LogsIMARole"
    [("roleName", VStr "IAM-logs-role");
     ("assumedBy", VNew "ServicePrincipal" [VStr "vpc-flow-logs.amazonaws.com"])] ;;
  addToPolicy logsIamRole
    (VNew "PolicyStatement"
       [VObj [("effect", VEnum "iam.Effect.ALLOW");
              ("resources", VArr [VStr "*"]);
              ("actions", VArr [VStr "logs:*"])]]) ;;
  publicVpcAcceptFlowLogGroup <- new_ LogGroup this "public-vpc-accept-log-group"
    [("logGroupName", VStr "PublicVPCAcceptLogGroup");
     ("retention", VEnum "RetentionDays.ONE_DAY");
     ("removalPolicy", VEnum "RemovalPolicy.DESTROY")] ;;
  (* Log all accepted traffic *)
  addFlowLog publicVpc "public-vpc-accept-flow-log"
    [("destination",
      VCall "FlowLogDestination.toCloudWatchLogs" [publicVpcAcceptFlowLogGroup; logsIamRole]);
     ("trafficType", VEnum "FlowLogTrafficType.ACCEPT")] ;;
  publicVpcRejectFlowLogGroup <- new_ LogGroup this "public-vpc-reject-log-group"
    [("logGroupName", VStr "PublicVPCRejectLogGroup");
     ("retention", VEnum "RetentionDays.ONE_DAY");
     ("removalPolicy", VEnum "RemovalPolicy.DESTROY")] ;;
  (* Log all rejected traffic *)
  addFlowLog publicVpc "public-vpc-reject-flow-log"
    [("destination",
      VCall "FlowLogDestination.toCloudWatchLogs" [publicVpcRejectFlowLogGroup; logsIamRole]);
     ("trafficType", VEnum "FlowLogTrafficType.REJECT")] ;;
  ret tt.

Definition VpcPluralsightStack := Stack_constructor constructor.

End Part003.

(** ** src/unnamed/part_000: the transit VPC construct, never instantiated *)
Module Part000.

Record TransitVpcConstructProps : Type := mkTransitProps {
  sshKeyPairName : string;
  sharedVpc : Value
}.

Definition TransitVpcConstruct (props : TransitVpcConstructProps) : M unit :=
  transitVpc <- new_ Vpc this "transit-vpc"
    [("vpcName", VStr "transit-vpc");
     ("cidr", VStr "10.3.0.0/16");
     ("subnetConfiguration", VArr [])] ;;
  applyRemovalPolicy transitVpc DESTROY ;;
  transitVpcSubnet <- new_ Subnet this "transit-vpc-subnet"
    [("vpcId", VMember transitVpc "vpcId");
     ("availabilityZone", VStr "eu-west-1a");
     ("cidrBlock", VStr "10.3.0.0/24")] ;;
  applyRemovalPolicy transitVpcSubnet DESTROY ;;
  transitVpcInternetGateway <- new_ CfnInternetGateway this "transit-vpc-internet-gateway"
    [("tags", VArr [VObj [("key", VStr "Name"); ("value", VStr "transit-igw")]])] ;;
  applyRemovalPolicy transitVpcInternetGateway DESTROY ;;
  transitVpcIgwAttachment <- new_ CfnVPCGatewayAttachment this "transit-vpc-igw-attachment"
    [("vpcId", VMember transitVpc "vpcId");
     ("internetGatewayId", VMember transitVpcInternetGateway "attrInternetGatewayId")] ;;
  applyRemovalPolicy transitVpcIgwAttachment DESTROY ;;
  transitVpcRouteTable <- new_ CfnRouteTable this "transit-vpc-route-table"
    [("vpcId", VMember transitVpc "vpcId");
     ("tags", VArr [VObj [("key", VStr "Name"); ("value", VStr "transit")]])] ;;
  applyRemovalPolicy transitVpcRouteTable DESTROY ;;
  transitRouteTableDefaultRoute <- new_ CfnRoute this "transit-route-table-default"
    [("routeTableId", VMember transitVpcRouteTable "attrRouteTableId");
     ("destinationCidrBlock", VStr "0.0.0.0/0");
     ("gatewayId", VMember transitVpcInternetGateway "attrInternetGatewayId")] ;;
  applyRemovalPolicy transitRouteTableDefaultRoute DESTROY ;;
  transitSubnetRouteTableAssociation <-
    new_ CfnSubnetRouteTableAssociation this "transit-subnet-route-table-assc"
      [("routeTableId", VMember transitVpcRouteTable "attrRouteTableId");
       ("subnetId", VMember transitVpcSubnet "subnetId")] ;;
  applyRemovalPolicy transitSubnetRouteTableAssociation DESTROY ;;
  transitInstanceSecGroup <- new_ SecurityGroup this "transit-instance-sec-group"
    [("vpc", transitVpc);
     ("securityGroupName", VStr "Transit VPC ec2 instance security group")] ;;
  applyRemovalPolicy transitInstanceSecGroup DESTROY ;;
  addIngressRule transitInstanceSecGroup
    (VCall "ec2.Peer.ipv4" [VStr "24.96.0.0/16"])
    (VCall "ec2.Port.tcp" [VNum 22])
    "SSH access from ipv4 range 24.96.0.0/16" ;;
  ciscoRouterInstance <- new_ Instance this "cisco-router-instance"
    [("vpc", transitVpc);
     ("keyName", VStr (sshKeyPairName props));
     ("privateIpAddress", VStr "10.3.0.10");
     ("vpcSubnets", VObj [("subnets", VArr [transitVpcSubnet])]);
     ("instanceType", VNew "ec2.InstanceType" [VStr "t2.medium"]);
     ("instanceName", VStr "transit-csr");
     ("machineImage",
      VNew "ec2.LookupMachineImage"
        [VObj [("name",
                VStr "Cisco Cloud Services Router (CSR) 1000V - BYOL for Maximum Performance")]])] ;;
  applyRemovalPolicy ciscoRouterInstance DESTROY ;;
  transitInstanceEip <- new_ CfnEIP this "transit-instance-eip"
    [("instanceId", VMember ciscoRouterInstance "instanceId")] ;;
  applyRemovalPolicy transitInstanceEip DESTROY ;;
  transitVPG <- new_ VpnGateway this "transit-vpc-gateway"
    [("type", VEnum "VpnConnectionType.IPSEC_1")] ;;
  applyRemovalPolicy transitVPG DESTROY ;;
  vpgVpcAttachment <- new_ CfnVPCGatewayAttachment this "transit-vpc-vpg-attachment"
    [("vpcId", VMember (sharedVpc props) "vpcId");
     ("vpnGatewayId", VMember transitVPG "gatewayId")] ;;
  applyRemovalPolicy vpgVpcAttachment DESTROY ;;
  transitSharedVpcVpnConnection <- new_ VpnConnection this "transit-shared-vpc-vpn-conn"
    [("vpc", sharedVpc props);
     ("ip", VMember ciscoRouterInstance "instancePublicIp")] ;;
  applyRemovalPolicy transitSharedVpcVpnConnection DESTROY ;;
  (* At this point the source lists manual steps: download the configuration
     file of the VPN connection, SSH into the router instance, paste it. *)
  transitRoutePropagation <- new_ CfnVPNGatewayRoutePropagation this "transitRouteProp"
    [("vpnGatewayId", VMember transitVPG "gatewayId");
     ("routeTableIds", VArr [VStr "*"])] ;;
  applyRemovalPolicy transitRoutePropagation DESTROY ;;
  (* CloudHub module *)
  onPremCustomerGateway1 <- new_ CfnCustomerGateway this "on-prem-customer-gateway-1"
    [("tags", VArr [VObj [("key", VStr "Name"); ("value", VStr "chs-r1")]]);
     ("bgpAsn", VNum 65000);
     ("type", VEnum "VpnConnectionType.IPSEC_1");
     ("ipAddress", VStr "24.96.154.173")] ;;
  applyRemovalPolicy onPremCustomerGateway1 DESTROY ;;
  onPremCustomerGateway2 <- new_ CfnCustomerGateway this "on-prem-customer-gateway-2"
    [("tags", VArr [VObj [("key", VStr "Name"); ("value", VStr "atl-r1")]]);
     ("bgpAsn", VNum 65001);
     ("type", VEnum "VpnConnectionType.IPSEC_1");
     ("ipAddress", VStr "24.96.154.174")] ;;
  applyRemovalPolicy onPremCustomerGateway2 DESTROY ;;
  cloudHubVPG <- new_ VpnGateway this "on-prem-vpg"
    [("type", VEnum "VpnConnectionType.IPSEC_1")] ;;
  applyRemovalPolicy cloudHubVPG DESTROY ;;
  cloudHubVpGAttachment <- new_ CfnVPCGatewayAttachment this "on-prem-vpc-transit-attachment"
    [("vpcId", VMember transitVpc "vpcId");
     ("vpnGatewayId", VMember cloudHubVPG "gatewayId")] ;;
  applyRemovalPolicy cloudHubVpGAttachment DESTROY ;;
  onPrem1VPNConnection <- new_ VpnConnection this "on-prem-1-vpn-connection"
    [("vpc", transitVpc);
     ("ip", VMember onPremCustomerGateway1 "ipAddress")] ;;
  applyRemovalPolicy onPrem1VPNConnection DESTROY ;;
  onPrem2VPNConnection <- new_ VpnConnection this "on-prem-2-vpn-connection"
    [("vpc", transitVpc);
     ("ip", VMember onPremCustomerGateway2 "ipAddress")] ;;
  applyRemovalPolicy onPrem2VPNConnection DESTROY
  (* Again the configuration files must be downloaded and applied by hand. *).

End Part000.

(** ** The four definitions of the stack, and the entry point *)

Inductive Version : Type := V_part002 | V_part001 | V_lib | V_part003.

Definition constructor_of (v : Version) : M unit :=
  match v with
  | V_part002 => Part002.constructor
  | V_part001 => Part001.constructor
  | V_lib => LibStack.constructor
  | V_part003 => Part003.constructor
  end.

Definition VpcPluralsightStack_of (v : Version) :=
  Stack_constructor (constructor_of v).

(** The tree a constructor builds when the toolkit accepts every call. *)
Definition full_tree (v : Version) : Tree :=
  fst (constructor_of v accept_all empty_tree).

(** [const app = new cdk.App()] *)
Definition App_new : Scope := [].

(** src/bin/vpc-pluralsight.ts:
    [new VpcPluralsightStack(app, 'VpcPluralsightStack')], for a given
    definition of the class. *)
Definition app_with (v : Version) (tk : Toolkit) : Scope * (Error + unit) :=
  VpcPluralsightStack_of v tk App_new "VpcPluralsightStack" None.

(** The import of the entry point, ['../lib/vpc-pluralsight-stack'], names
    src/lib/vpc-pluralsight-stack.ts. *)
Definition app : Toolkit -> Scope * (Error + unit) := app_with V_lib.

(** Every constructor of the repository. *)
Inductive Class : Type :=
| VpcPluralsightStackClass (v : Version)
| TransitVpcConstructClass (props : Part000.TransitVpcConstructProps).

Definition body (cls : Class) : M unit :=
  match cls with
  | VpcPluralsightStackClass v => constructor_of v
  | TransitVpcConstructClass props => Part000.TransitVpcConstruct props
  end.


(** ** Comparing a run under any toolkit with the run that accepts all *)

(** Before a statement runs, every logged call has become a construct. *)
Definition consistent (t : Tree) : Prop := log t = headers t.

(** [faithful m]: from a consistent tree, the accepting run of [m] returns
    and stays consistent; a run under any toolkit either returns with the
    same tree and value, or stops with the error of the call it attempted
    last, which the toolkit raised, having logged a prefix of what the
    accepting run logs. *)
Definition faithful {A} (m : M A) : Prop :=
  forall (tk : Toolkit) (t : Tree), consistent t ->
    exists t0 a0,
      m accept_all t = (t0, inr a0) /\
      consistent t0 /\
      log t `prefix_of` log t0 /\
      match m tk t with
      | (t1, inr a) => t1 = t0 /\ a = a0
      | (t1, inl (Raised c)) =>
          (exists t', tk t' c = true) /\
          log t1 = headers t1 ++ [c] /\ log t1 `prefix_of` log t0
      end.


(** ** Reading the declarations *)

Definition call_path (c : Call) : Path := call_scope c ++ [call_id c].

Definition find_call (p : Path) (cs : list Call) : option Call :=
  find (fun d => Path_eqb (call_path d) p) cs.

Definition find_node (p : Path) (t : Tree) : option Node :=
  find (fun n => Path_eqb (node_path n) p) (nodes t).

(** The construct a member access such as [publicVpc.vpcId] is taken from. *)
Definition member_target (member : string) (v : option Value) : option Path :=
  match v with
  | Some (VMember (VRef p) m) => if String.eqb m member then Some p else None
  | _ => None
  end.

(** *** Hardcoded network settings *)

Definition literal_args (v : Value) : bool :=
  match v with
  | VCall _ args => forallb is_literal args
  | _ => false
  end.

Definition tag_literal (v : Value) : bool :=
  match v with
  | VObj fs =>
      match field "key" fs, field "value" fs with
      | Some k, Some x => is_literal k && is_literal x
      | _, _ => false
      end
  | _ => false
  end.

Definition network_key (k : string) : bool :=
  String.eqb k "cidr" || String.eqb k "cidrBlock" ||
  String.eqb k "destinationCidrBlock" || String.eqb k "availabilityZone".

(** A CIDR block or an availability zone is a string literal, [tags] is an
    array of [{key, value}] literals. *)
Definition hardcoded_prop (kv : string * Value) : bool :=
  let '(k, v) := kv in
  if network_key k then is_literal v
  else if String.eqb k "tags"
       then match v with VArr ts => forallb tag_literal ts | _ => false end
       else true.

(** ... and the peer of every ingress rule is [ec2.Peer.f(...)] over
    literals. *)
Definition hardcoded (n : Node) : bool :=
  forallb hardcoded_prop (call_props (n_decl n)) &&
  forallb (fun r => literal_args (ing_peer r)) (n_ingress n).

(** *** Kinds of resources *)

Inductive Category : Type :=
| CatVpc | CatSubnet | CatRouteTable | CatGateway | CatSecurityGroup
| CatInstance | CatVpnOrPeering | CatFlowLog.

Definition all_categories : list Category :=
  [CatVpc; CatSubnet; CatRouteTable; CatGateway; CatSecurityGroup;
   CatInstance; CatVpnOrPeering; CatFlowLog].

Definition in_category (cat : Category) (k : Kind) : bool :=
  match cat, k with
  | CatVpc, Vpc => true
  | CatSubnet, Subnet => true
  | CatRouteTable, CfnRouteTable => true
  | CatGateway, (CfnInternetGateway | VpnGateway | CfnCustomerGateway) => true
  | CatSecurityGroup, SecurityGroup => true
  | CatInstance, Instance => true
  | CatVpnOrPeering,
    (VpnGateway | VpnConnection | CfnVPNGatewayRoutePropagation
     | CfnCustomerGateway | CfnVPCPeeringConnection) => true
  | CatFlowLog, FlowLog => true
  | _, _ => false
  end.

(** Some construct below [scope] belongs to the category. *)
Definition declares (cat : Category) (scope : Scope) : bool :=
  existsb (fun st =>
    existsb (fun n => in_category cat (call_kind (n_decl n))) (nodes (st_tree st)))
    scope.

Definition declares_every_kind (scope : Scope) : Prop :=
  forall cat, declares cat scope = true.

Definition declared_categories (scope : Scope) : list Category :=
  filter (fun cat => declares cat scope = true) all_categories.

(** *** What only the transit construct declares *)

Definition transit_kind (k : Kind) : bool :=
  match k with
  | VpnGateway | VpnConnection | CfnCustomerGateway
  | CfnVPNGatewayRoutePropagation | TransitVpcConstructKind => true
  | _ => false
  end.

(** The ids used by [TransitVpcConstruct]; they do not depend on its props. *)
Definition transit_ids : list string :=
  map call_id
    (headers (fst (Part000.TransitVpcConstruct
                     (Part000.mkTransitProps "" (VRef [])) accept_all empty_tree))).

Definition has_string_field (k s : string) (c : Call) : bool :=
  match field k (call_props c) with
  | Some (VStr s') => String.eqb s s'
  | _ => false
  end.

Definition transit_free (c : Call) : bool :=
  negb (transit_kind (call_kind c)) &&
  negb (has_string_field "cidr" "10.3.0.0/16" c) &&
  negb (has_string_field "instanceName" "transit-csr" c) &&
  negb (bool_decide (call_id c ∈ transit_ids)).

(** *** Configuration carried by a declaration *)

(** The props through which an [ec2.Instance] or a VPN construct would be
    given a script or configuration to apply. *)
Definition configuration_keys : list string :=
  ["userData"; "userDataCausesReplacement"; "init"; "initOptions";
   "tunnelOptions"; "staticRoutes"].

Definition carries_configuration (c : Call) : bool :=
  existsb (fun k => bool_decide (k ∈ configuration_keys)) (map fst (call_props c)).

(** *** CIDR blocks *)

Record Cidr : Type := mkCidr { base : Z; plen : Z }.

Local Open Scope Z_scope.

Definition digit_of (a : ascii) : option Z :=
  let n := Z.of_N (Ascii.N_of_ascii a) in
  if (48 <=? n) && (n <=? 57) then Some (n - 48) else None.

(** The decimal numbers of a string and the characters between them. *)
Fixpoint scan (s : string) (cur : option Z) (nums : list Z) (seps : list ascii)
  : option (list Z * list ascii) :=
  match s with
  | EmptyString =>
      match cur with
      | Some n => Some (nums ++ [n], seps)
      | None => None
      end
  | String a rest =>
      match digit_of a with
      | Some d => scan rest (Some (10 * default 0 cur + d)) nums seps
      | None =>
          match cur with
          | Some n => scan rest None (nums ++ [n]) (seps ++ [a])
          | None => None
          end
      end
  end.

(** ["a.b.c.d/p"] as the 32-bit address and the prefix length. *)
Definition parse_cidr (s : string) : option Cidr :=
  match scan s None [] [] with
  | Some ([a; b; c; d; p], seps) =>
      if bool_decide (seps = ["."; "."; "."; "/"]%char)
         && forallb (fun x => x <=? 255) [a; b; c; d] && (p <=? 32)
      then Some (mkCidr (((a * 256 + b) * 256 + c) * 256 + d) p)
      else None
  | _ => None
  end.

(** The addresses of a block: those that agree with the base on the first
    [plen] bits. *)
Definition in_cidr (c : Cidr) (ip : Z) : Prop :=
  0 <= ip < 2 ^ 32 /\
  Z.shiftr ip (32 - plen c) = Z.shiftr (base c) (32 - plen c).

Definition cidr_within (a b : Cidr) : bool :=
  (0 <=? plen b) && (plen b <=? plen a) && (plen a <=? 32) &&
  (Z.shiftr (base a) (32 - plen b) =? Z.shiftr (base b) (32 - plen b)).

Definition cidr_disjoint (a b : Cidr) : bool :=
  let l := Z.min (plen a) (plen b) in
  (0 <=? l) && (Z.max (plen a) (plen b) <=? 32) &&
  negb (Z.shiftr (base a) (32 - l) =? Z.shiftr (base b) (32 - l)).

Local Close Scope Z_scope.

Definition cidr_field (k : string) (c : Call) : option Cidr :=
  match field k (call_props c) with
  | Some (VStr s) => parse_cidr s
  | _ => None
  end.

Definition string_field (k : string) (c : Call) : option string :=
  match field k (call_props c) with
  | Some (VStr s) => Some s
  | _ => None
  end.

(** The VPC a subnet is declared in: the target of its [vpcId]. *)
Definition parent_vpc (cs : list Call) (c : Call) : option Call :=
  match member_target "vpcId" (field "vpcId" (call_props c)) with
  | Some p =>
      match find_call p cs with
      | Some v => if Kind_eqb (call_kind v) Vpc then Some v else None
      | None => None
      end
  | None => None
  end.

Definition subnet_within_vpc (cs : list Call) (c : Call) : bool :=
  if Kind_eqb (call_kind c) Subnet then
    match cidr_field "cidrBlock" c, parent_vpc cs c with
    | Some a, Some v =>
        match cidr_field "cidr" v with
        | Some b => cidr_within a b
        | None => false
        end
    | _, _ => false
    end
  else true.

(** What containment means for a declared subnet. *)
Definition subnet_contained (cs : list Call) (c : Call) : Prop :=
  call_kind c = Subnet ->
  exists vpc a b,
    vpc ∈ cs /\ call_kind vpc = Vpc /\
    field "vpcId" (call_props c) = Some (VMember (VRef (call_path vpc)) "vpcId") /\
    cidr_field "cidrBlock" c = Some a /\
    cidr_field "cidr" vpc = Some b /\
    forall ip, in_cidr a ip -> in_cidr b ip.

(** The CIDR strings of every subnet and of its VPC, in declaration order. *)
Definition subnet_table (cs : list Call) : list (option string * option string) :=
  map (fun c => (string_field "cidrBlock" c,
                 match parent_vpc cs c with
                 | Some v => string_field "cidr" v
                 | None => None
                 end))
      (filter (fun c => Kind_eqb (call_kind c) Subnet = true) cs).

(** The two VPCs of a peering connection. *)
Definition peered_vpcs (cs : list Call) (pcx : Call) : option (Call * Call) :=
  match member_target "vpcId" (field "vpcId" (call_props pcx)),
        member_target "vpcId" (field "peerVpcId" (call_props pcx)) with
  | Some p, Some q =>
      match find_call p cs, find_call q cs with
      | Some a, Some b => Some (a, b)
      | _, _ => None
      end
  | _, _ => None
  end.

(** *** The order of declaration, as a table of class and id *)

Definition signature (c : Call) : Kind * string := (call_kind c, call_id c).

Definition sequence_part003 : list (Kind * string) :=
  [ (Vpc, "PublicVpc");
    (Subnet, "PublicSubnet");
    (CfnRouteTable, "PublicRouteTable");
    (CfnSubnetRouteTableAssociation, "PublicRouteTableSubnetAssociation1");
    (CfnInternetGateway, "PublicInternetGateway");
    (CfnVPCGatewayAttachment, "PublicVpcIgwAttachment");
    (CfnRoute, "PublicInternetAccessRoute");
    (SecurityGroup, "PublicSecurityGroup");
    (CfnKeyPair, "ssh-keypair");
    (Instance, "public-ec2-instance");
    (CfnEIP, "public-elastic-ip");
    (CfnEIPAssociation, "public-elastic-ip-network-interface-assc");
    (Vpc, "SharedVpc");
    (Subnet, "DatabaseSubnet");
    (CfnRouteTable, "SharedRouteTable");
    (CfnSubnetRouteTableAssociation, "SharedRouteTableSubnetAssociation");
    (SecurityGroup, "DatabaseSecurityGroup");
    (Instance, "database-ec2-instance");
    (CfnVPCPeeringConnection, "PCX");
    (CfnRoute, "public-route-table-peering-route");
    (CfnRoute, "shared-route-table-peering-route");
    (CfnInternetGateway, "shared-igw");
    (CfnVPCGatewayAttachment, "SharedVpcIgwAttachment");
    (Subnet, "shared-nat-subnet");
    (CfnRouteTable, "nat-pub-route-table");
    (CfnRoute, "default-nat-route");
    (CfnSubnetRouteTableAssociation, "NATRouteTableSubnetAssociation");
    (SecurityGroup, "nat-security-group");
    (Instance, "nat-ec2-instance");
    (CfnEIP, "nat-eip");
    (CfnRoute, "shared-default-route");
    (Role, "LogsIMARole");
    (LogGroup, "public-vpc-accept-log-group");
    (FlowLog, "public-vpc-accept-flow-log");
    (LogGroup, "public-vpc-reject-log-group");
    (FlowLog, "public-vpc-reject-flow-log") ].

Definition sequence_part002 : list (Kind * string) :=
  [ (Vpc, "PublicVpc");
    (Subnet, "PublicSubnet");
    (CfnRouteTable, "PublicRouteTable");
    (CfnSubnetRouteTableAssociation, "PublicRouteTableSubnetAssociation");
    (CfnInternetGateway, "PublicInternetGateway");
    (CfnVPCGatewayAttachment, "PublicVpcIgwAttachment");
    (CfnRoute, "PublicInternetAccessRoute") ].

(** The later definitions extend the earlier ones at the end. *)
Definition declared_sequence (v : Version) : list (Kind * string) :=
  match v with
  | V_part002 => sequence_part002
  | V_part001 => take 12 sequence_part003
  | V_lib => take 18 sequence_part003
  | V_part003 => sequence_part003
  end.

(** ** A toolkit that rejects one instantiation, by its position *)

(** [cut k] raises at the instantiation attempted when [k] have been logged,
    and at no other. *)
Definition cut (k : nat) : Toolkit :=
  fun t _ => Nat.eqb (length (log t)) k.

(** [positional m]: a run of [m] that stops with an error is the run under
    the toolkit that rejects only the call that failed, and a run that
    returns is the run under any toolkit that rejects nothing that early. *)
Definition positional {A} (m : M A) : Prop :=
  forall (tk : Toolkit) (t : Tree),
    match m tk t with
    | (t1, inl e) =>
        length (log t) < length (log t1) /\
        m (cut (length (log t1) - 1)) t = (t1, inl e)
    | (t1, inr a) =>
        length (log t) <= length (log t1) /\
        forall k, length (log t1) <= k -> m (cut k) t = (t1, inr a)
    end.

Definition attempts (cls : Class) : nat :=
  match cls with
  | VpcPluralsightStackClass V_part002 => 7
  | VpcPluralsightStackClass V_part001 => 12
  | VpcPluralsightStackClass V_lib => 18
  | VpcPluralsightStackClass V_part003 => 36
  | TransitVpcConstructClass _ => 20
  end.

(** ** References between constructs *)

(** The constructs a value refers to. *)
Fixpoint refs (v : Value) : list Path :=
  match v with
  | VRef p => [p]
  | VMember b _ => refs b
  | VArr items =>
      (fix go (l : list Value) : list Path :=
         match l with [] => [] | x :: r => refs x ++ go r end) items
  | VObj fields =>
      (fix go (l : list (string * Value)) : list Path :=
         match l with [] => [] | (_, x) :: r => refs x ++ go r end) fields
  | VNew _ args | VCall _ args =>
      (fix go (l : list Value) : list Path :=
         match l with [] => [] | x :: r => refs x ++ go r end) args
  | _ => []
  end.

Definition call_refs (c : Call) : list Path :=
  concat (map (fun kv => refs (snd kv)) (call_props c)).

(** [scoped outside seen cs]: going through [cs] in order, with [seen] the
    constructs declared so far, every declaration is made in [this] or in a
    construct declared before it, and refers only to constructs declared
    before it or known from [outside]. *)
Fixpoint scoped (outside seen : list Path) (cs : list Call) : Prop :=
  match cs with
  | [] => True
  | c :: rest =>
      (call_scope c = this \/ call_scope c ∈ seen) /\
      (forall p, p ∈ call_refs c -> p ∈ seen \/ p ∈ outside) /\
      scoped outside (seen ++ [call_path c]) rest
  end.

Fixpoint scopedb (seen : list Path) (cs : list Call) : bool :=
  match cs with
  | [] => true
  | c :: rest =>
      (bool_decide (call_scope c = this) || bool_decide (call_scope c ∈ seen)) &&
      forallb (fun p => bool_decide (p ∈ seen)) (call_refs c) &&
      scopedb (seen ++ [call_path c]) rest
  end.

(** What is known from outside a constructor: nothing for a stack, the
    shared VPC handed to the transit construct. *)
Definition outside (cls : Class) : list Path :=
  match cls with
  | VpcPluralsightStackClass _ => []
  | TransitVpcConstructClass props => refs (Part000.sharedVpc props)
  end.

(** ** Removal policies *)

(** The removal policy a construct ends up with: the one applied to it, or
    the [removalPolicy] it was given as a prop. *)
Definition removal_of (n : Node) : option RemovalPolicy :=
  match n_removal n with
  | Some p => Some p
  | None =>
      match field "removalPolicy" (call_props (n_decl n)) with
      | Some (VEnum e) =>
          if String.eqb e "RemovalPolicy.DESTROY" then Some DESTROY else None
      | _ => None
      end
  end.

Definition unmanaged_kind (k : Kind) : bool :=
  match k with Role | FlowLog => true | _ => false end.

(** ** Ingress rules *)






(** ** Where a construct sits in the network *)

Definition ref_field (k : string) (c : Call) : option Path :=
  match field k (call_props c) with
  | Some (VRef p) => Some p
  | _ => None
  end.

(** The VPC of a declaration: the target of its [vpcId], or its [vpc]. *)
Definition vpc_of (c : Call) : option Path :=
  match member_target "vpcId" (field "vpcId" (call_props c)) with
  | Some p => Some p
  | None => ref_field "vpc" c
  end.

Definition find_kind (k : Kind) (p : Path) (cs : list Call) : option Call :=
  match find_call p cs with
  | Some c => if Kind_eqb (call_kind c) k then Some c else None
  | None => None
  end.

Definition same_path (a b : option Path) : bool :=
  match a, b with
  | Some p, Some q => Path_eqb p q
  | _, _ => false
  end.

(** The one subnet an instance is placed in: [vpcSubnets: {subnets: [s]}]. *)
Definition instance_subnet (c : Call) : option Path :=
  match field "vpcSubnets" (call_props c) with
  | Some (VObj fs) =>
      match field "subnets" fs with
      | Some (VArr [VRef p]) => Some p
      | _ => None
      end
  | _ => None
  end.

(** ["a.b.c.d"] as a 32-bit address. *)
Definition parse_ip (s : string) : option Z :=
  match scan s None [] [] with
  | Some ([a; b; c; d], seps) =>
      if bool_decide (seps = ["."; "."; "."]%char)
         && forallb (fun x => (x <=? 255)%Z) [a; b; c; d]
      then Some ((((a * 256 + b) * 256 + c) * 256 + d)%Z)
      else None
  | _ => None
  end.

Definition in_cidrb (c : Cidr) (ip : Z) : bool :=
  ((0 <=? ip) && (ip <? 2 ^ 32) &&
   (Z.shiftr ip (32 - plen c) =? Z.shiftr (base c) (32 - plen c)))%Z.

(** An instance is placed as the network requires when its subnet is a
    declared subnet of the instance's VPC, its private address is an address
    of that subnet, and its security group, if any, is of the same VPC. *)
Definition instance_placed (cs : list Call) (c : Call) : bool :=
  if Kind_eqb (call_kind c) Instance then
    match instance_subnet c with
    | Some sp =>
        match find_kind Subnet sp cs with
        | Some s =>
            same_path (vpc_of s) (ref_field "vpc" c) &&
            match cidr_field "cidrBlock" s, string_field "privateIpAddress" c with
            | Some blk, Some a =>
                match parse_ip a with
                | Some ip => in_cidrb blk ip
                | None => false
                end
            | _, _ => false
            end &&
            match field "securityGroup" (call_props c) with
            | None => true
            | Some (VRef g) =>
                match find_kind SecurityGroup g cs with
                | Some sg => same_path (ref_field "vpc" sg) (ref_field "vpc" c)
                | None => false
                end
            | Some _ => false
            end
        | None => false
        end
    | None => false
    end
  else true.

Definition instance_in_subnet (cs : list Call) (c : Call) : Prop :=
  call_kind c = Instance ->
  exists sp s blk a ip,
    instance_subnet c = Some sp /\
    find_call sp cs = Some s /\ call_kind s = Subnet /\
    vpc_of s = ref_field "vpc" c /\
    cidr_field "cidrBlock" s = Some blk /\
    string_field "privateIpAddress" c = Some a /\
    parse_ip a = Some ip /\
    in_cidr blk ip.

(** *** Route tables *)

Definition route_table_of (c : Call) : option Path :=
  member_target "attrRouteTableId" (field "routeTableId" (call_props c)).

Definition is_kind (k : Kind) (c : Call) : bool := Kind_eqb (call_kind c) k.

Definition routes (cs : list Call) : list Call := List.filter (is_kind CfnRoute) cs.

(** A route names a declared route table and a destination block that
    parses. *)
Definition route_formed (cs : list Call) (c : Call) : bool :=
  if is_kind CfnRoute c then
    match route_table_of c with
    | Some rt =>
        match find_kind CfnRouteTable rt cs with
        | Some _ =>
            match cidr_field "destinationCidrBlock" c with
            | Some _ => true
            | None => false
            end
        | None => false
        end
    | None => false
    end
  else true.

(** The route table and the destination of a route, the block as numbers. *)
Definition route_key (c : Call) : option Path * option (Z * Z) :=
  (route_table_of c,
   match cidr_field "destinationCidrBlock" c with
   | Some d => Some (base d, plen d)
   | None => None
   end).

(** *** Subnets and their route tables *)

Definition assoc_subnet (c : Call) : option Path :=
  member_target "subnetId" (field "subnetId" (call_props c)).

(** An association joins a declared subnet and a declared route table of the
    same VPC. *)
Definition association_formed (cs : list Call) (c : Call) : bool :=
  if is_kind CfnSubnetRouteTableAssociation c then
    match assoc_subnet c, route_table_of c with
    | Some sp, Some rp =>
        match find_kind Subnet sp cs, find_kind CfnRouteTable rp cs with
        | Some s, Some rt => same_path (vpc_of s) (vpc_of rt)
        | _, _ => false
        end
    | _, _ => false
    end
  else true.

(** *** What a route leads to *)

(** Some attachment joins the internet gateway [g] to the VPC [v]. *)
Definition gateway_attached (cs : list Call) (g v : Path) : bool :=
  existsb (fun a =>
    is_kind CfnVPCGatewayAttachment a &&
    same_path (member_target "attrInternetGatewayId"
                 (field "internetGatewayId" (call_props a))) (Some g) &&
    same_path (vpc_of a) (Some v)) cs.

(** A route through a gateway goes to an internet gateway attached to the
    VPC of the route's table; a route through an instance goes to an instance
    of that VPC. *)
Definition route_target_local (cs : list Call) (c : Call) : bool :=
  if is_kind CfnRoute c then
    match route_table_of c with
    | Some rp =>
        match find_kind CfnRouteTable rp cs with
        | Some rt =>
            match vpc_of rt with
            | Some v =>
                match field "gatewayId" (call_props c) with
                | Some g =>
                    match member_target "attrInternetGatewayId" (Some g) with
                    | Some gp =>
                        match find_kind CfnInternetGateway gp cs with
                        | Some _ => gateway_attached cs gp v
                        | None => false
                        end
                    | None => false
                    end
                | None => true
                end &&
                match field "instanceId" (call_props c) with
                | Some i =>
                    match member_target "instanceId" (Some i) with
                    | Some ip =>
                        match find_kind Instance ip cs with
                        | Some inst => same_path (ref_field "vpc" inst) (Some v)
                        | None => false
                        end
                    | None => false
                    end
                | None => true
                end
            | None => false
            end
        | None => false
        end
    | None => false
    end
  else true.

(** The construct whose [peerOwnerId] a route reads for its
    [vpcPeeringConnectionId], as in
    [vpcPeeringConnectionId: vpcPeeringConnection.peerOwnerId]. *)
Definition peer_owner_read (c : Call) : option Path :=
  member_target "peerOwnerId" (field "vpcPeeringConnectionId" (call_props c)).

(** Some subnet of the VPC [v] has exactly the block [d]. *)
Definition subnet_block_in (cs : list Call) (v : Path) (d : Cidr) : bool :=
  existsb (fun s =>
    is_kind Subnet s && same_path (vpc_of s) (Some v) &&
    match cidr_field "cidrBlock" s with
    | Some b => (base b =? base d)%Z && (plen b =? plen d)%Z
    | None => false
    end) cs.

(** A route that reads the [peerOwnerId] of a peering connection sits in a
    table of one of the two VPCs that connection is declared between, and
    its destination is the block of a subnet of the other. *)
Definition peer_owner_route_crosses (cs : list Call) (c : Call) : bool :=
  match peer_owner_read c with
  | None => true
  | Some x =>
      match find_kind CfnVPCPeeringConnection x cs, route_table_of c,
            cidr_field "destinationCidrBlock" c with
      | Some pcx, Some rp, Some d =>
          match find_kind CfnRouteTable rp cs,
                member_target "vpcId" (field "vpcId" (call_props pcx)),
                member_target "vpcId" (field "peerVpcId" (call_props pcx)) with
          | Some rt, Some a, Some b =>
              (same_path (vpc_of rt) (Some a) && subnet_block_in cs b d)
              || (same_path (vpc_of rt) (Some b) && subnet_block_in cs a d)
          | _, _, _ => false
          end
      | _, _, _ => false
      end
  end.

(** *** Elastic addresses *)





(** *** All pairs of a list *)

Fixpoint pairwise {A} (r : A -> A -> bool) (l : list A) : bool :=
  match l with
  | [] => true
  | x :: rest => forallb (r x) rest && pairwise r rest
  end.

Definition subnets_apart (c d : Call) : bool :=
  if is_kind Subnet c && is_kind Subnet d then
    match cidr_field "cidrBlock" c, cidr_field "cidrBlock" d with
    | Some a, Some b => cidr_disjoint a b
    | _, _ => false
    end
  else true.

(** *** What the props of the transit construct reach *)

(** The fields written with [props], by the id of the declaration and the
    key: [keyName: props.sshKeyPairName], [vpcId: props.sharedVpc.vpcId] and
    [vpc: props.sharedVpc]. *)
Definition props_fields : list (string * string) :=
  [("cisco-router-instance", "keyName");
   ("transit-vpc-vpg-attachment", "vpcId");
   ("transit-shared-vpc-vpn-conn", "vpc")].

(** A declaration with exactly those fields removed. *)
Definition without_props_fields (c : Call) : Call :=
  mkCall (call_scope c) (call_kind c) (call_id c)
    (List.filter (fun kv => negb (bool_decide ((call_id c, fst kv) ∈ props_fields)))
       (call_props c)).

(** * Properties *)

(** ** Runs under an arbitrary toolkit against the run that accepts all *)

Lemma faithful_ret {A} (a : A) : faithful (ret a).
Proof.
  intros tk t Ht. exists t, a. cbn. repeat split; auto.
Qed.

Lemma faithful_bind {A B} (m : M A) (f : A -> M B) :
  faithful m -> (forall a, faithful (f a)) -> faithful (bind m f).
Proof.
  intros Hm Hf tk t Ht.
  destruct (Hm tk t Ht) as (t0 & a0 & E0 & C0 & P0 & Hrun).
  destruct (Hf a0 tk t0 C0) as (t0' & b0 & E0' & C0' & P0' & Hrun').
  exists t0', b0. unfold bind. rewrite E0.
  split; [exact E0'|]. split; [exact C0'|].
  split; [etrans; eauto|].
  destruct (m tk t) as [t1 [[c]|a]].
  - destruct Hrun as (Htk & Hlog & Hpre).
    split; [exact Htk|]. split; [exact Hlog|]. etrans; eauto.
  - destruct Hrun as [-> ->]. exact Hrun'.
Qed.

Lemma faithful_new k scope id props : faithful (new_ k scope id props).
Proof.
  intros tk t Ht. unfold consistent, headers in *.
  eexists _, _. unfold new_ at 1. cbn.
  split; [reflexivity|]. cbn.
  split; [rewrite map_app, Ht; reflexivity|].
  split; [apply prefix_app_r; reflexivity|].
  unfold new_. destruct (tk t _) eqn:Htk; cbn.
  - rewrite Ht. split; [eexists; exact Htk|]. split; reflexivity.
  - split; reflexivity.
Qed.

Lemma headers_update_node target f t :
  (forall n, n_decl (f n) = n_decl n) ->
  headers (update_node target f t) = headers t.
Proof.
  intros Hf. unfold headers, update_node. cbn.
  rewrite map_map. apply map_ext. intros n.
  destruct (Path_eqb _ _); auto.
Qed.

Lemma faithful_update target f :
  (forall n, n_decl (f n) = n_decl n) ->
  faithful (fun _ t => (update_node target f t, inr tt)).
Proof.
  intros Hf tk t Ht. exists (update_node target f t), tt.
  split; [reflexivity|].
  split; [unfold consistent; rewrite headers_update_node by exact Hf; exact Ht|].
  split; [reflexivity|]. split; reflexivity.
Qed.

Lemma faithful_applyRemovalPolicy target p : faithful (applyRemovalPolicy target p).
Proof. apply faithful_update. reflexivity. Qed.

Lemma faithful_addIngressRule target peer port d :
  faithful (addIngressRule target peer port d).
Proof. apply faithful_update. reflexivity. Qed.

Lemma faithful_addToPolicy target st : faithful (addToPolicy target st).
Proof. apply faithful_update. reflexivity. Qed.

Lemma faithful_addFlowLog vpc id options : faithful (addFlowLog vpc id options).
Proof. apply faithful_new. Qed.

(** A constructor body is a chain of binds over the primitive statements. *)
Ltac faithful_body :=
  repeat lazymatch goal with
  | |- faithful (bind _ _) => apply faithful_bind; [|intros ?]
  | |- faithful (new_ _ _ _ _) => apply faithful_new
  | |- faithful (applyRemovalPolicy _ _) => apply faithful_applyRemovalPolicy
  | |- faithful (addIngressRule _ _ _ _) => apply faithful_addIngressRule
  | |- faithful (addToPolicy _ _) => apply faithful_addToPolicy
  | |- faithful (addFlowLog _ _ _) => apply faithful_addFlowLog
  | |- faithful (ret _) => apply faithful_ret
  end.

Lemma faithful_constructor v : faithful (constructor_of v).
Proof.
  destruct v; cbn [constructor_of];
    [ unfold Part002.constructor | unfold Part001.constructor
    | unfold LibStack.constructor | unfold Part003.constructor ];
    faithful_body.
Qed.

Lemma faithful_TransitVpcConstruct props : faithful (Part000.TransitVpcConstruct props).
Proof. unfold Part000.TransitVpcConstruct. faithful_body. Qed.

Lemma faithful_body_of cls : faithful (body cls).
Proof.
  destruct cls; [apply faithful_constructor | apply faithful_TransitVpcConstruct].
Qed.

(** The shape of a run that starts from the empty tree. *)
Lemma run_from_empty (m : M unit) (tk : Toolkit) :
  faithful m ->
  exists t0,
    m accept_all empty_tree = (t0, inr tt) /\
    headers t0 = log t0 /\
    match m tk empty_tree with
    | (t1, inr _) => t1 = t0
    | (t1, inl (Raised c)) =>
        (exists t', tk t' c = true) /\
        exists k, log t0 !! k = Some c /\
                  headers t1 = take k (log t0) /\
                  log t1 = take (S k) (log t0)
    end.
Proof.
  intros Hm.
  destruct (Hm tk empty_tree eq_refl) as (t0 & [] & E0 & C0 & _ & Hrun).
  exists t0. split; [exact E0|]. split; [symmetry; exact C0|].
  destruct (m tk empty_tree) as [t1 [[c]|a]].
  - destruct Hrun as (Htk & Hlog & [rest Hrest]). split; [exact Htk|].
    exists (length (headers t1)). rewrite Hrest, Hlog.
    rewrite <- !app_assoc. split; [|split].
    + apply list_lookup_middle. reflexivity.
    + rewrite take_app_length. reflexivity.
    + rewrite app_assoc. symmetry. apply take_app_length'.
      rewrite length_app. cbn. lia.
  - destruct Hrun as [-> _]. reflexivity.
Qed.

Lemma NoDup_take {A} (l : list A) k : NoDup l -> NoDup (take k l).
Proof.
  intros H. rewrite <- (take_drop k l) in H.
  apply NoDup_app in H. tauto.
Qed.

Lemma keys_distinct_full cls :
  NoDup (map call_key (log (fst (body cls accept_all empty_tree)))).
Proof.
  destruct cls as [[]|props]; refine (bool_decide_unpack _ _); vm_compute; exact I.
Qed.

(** ** Consequences for the constructors *)

Lemma forallb_Forall {A} (f : A -> bool) (l : list A) :
  forallb f l = true -> Forall (fun x => f x = true) l.
Proof.
  induction l as [|x l IH]; cbn; intros H; constructor;
    apply andb_prop in H; tauto.
Qed.

Lemma Stack_constructor_eq (m : M unit) tk scope id props :
  Stack_constructor m tk scope id props =
  (scope ++ [mkStack id props (fst (m tk empty_tree))], snd (m tk empty_tree)).
Proof. unfold Stack_constructor. destruct (m tk empty_tree). reflexivity. Qed.

(** When the toolkit accepts everything the constructor returns. *)
Lemma accepting_run (m : M unit) :
  faithful m ->
  m accept_all empty_tree = (fst (m accept_all empty_tree), inr tt).
Proof.
  intros Hm. destruct (run_from_empty m accept_all Hm) as (t0 & E0 & _).
  rewrite E0. reflexivity.
Qed.

(** A constructor that returns has built the tree of the accepting run. *)
Lemma normal_return_of (m : M unit) tk t :
  faithful m ->
  m tk empty_tree = (t, inr tt) ->
  t = fst (m accept_all empty_tree).
Proof.
  intros Hm E. destruct (run_from_empty m tk Hm) as (t0 & E0 & _ & Hrun).
  rewrite E in Hrun. rewrite E0. exact Hrun.
Qed.

Lemma normal_return v tk t :
  constructor_of v tk empty_tree = (t, inr tt) -> t = full_tree v.
Proof. apply normal_return_of, faithful_constructor. Qed.

(** What any run has declared is an initial segment of the full sequence. *)
Lemma headers_initial_segment (m : M unit) tk :
  faithful m ->
  exists k,
    headers (fst (m tk empty_tree)) = take k (headers (fst (m accept_all empty_tree))).
Proof.
  intros Hm. destruct (run_from_empty m tk Hm) as (t0 & E0 & H0 & Hrun).
  rewrite E0. cbn [fst]. destruct (m tk empty_tree) as [t1 [[c]|[]]].
  - destruct Hrun as (_ & k & _ & Hk & _). exists k. rewrite H0. exact Hk.
  - subst t1. exists (length (headers t0)). cbn [fst]. rewrite firstn_all. reflexivity.
Qed.

Lemma log_initial_segment (m : M unit) tk :
  faithful m ->
  exists k,
    log (fst (m tk empty_tree)) = take k (log (fst (m accept_all empty_tree))).
Proof.
  intros Hm. destruct (run_from_empty m tk Hm) as (t0 & E0 & H0 & Hrun).
  rewrite E0. cbn [fst]. destruct (m tk empty_tree) as [t1 [[c]|[]]].
  - destruct Hrun as (_ & k & _ & _ & Hk). exists (S k). exact Hk.
  - subst t1. exists (length (log t0)). cbn [fst]. rewrite firstn_all. reflexivity.
Qed.

Lemma headers_full_log (m : M unit) :
  faithful m ->
  headers (fst (m accept_all empty_tree)) = log (fst (m accept_all empty_tree)).
Proof.
  intros Hm. destruct (run_from_empty m accept_all Hm) as (t0 & E0 & H0 & _).
  rewrite E0. exact H0.
Qed.

(** A property of every declaration of the full sequence holds of every
    declaration of any run. *)
Lemma Forall_headers_any_run (P : Call -> Prop) (m : M unit) tk :
  faithful m ->
  Forall P (headers (fst (m accept_all empty_tree))) ->
  Forall P (headers (fst (m tk empty_tree))).
Proof.
  intros Hm H. destruct (headers_initial_segment m tk Hm) as [k ->].
  apply Forall_take. exact H.
Qed.

(** No run attempts an instantiation twice, nor declares an id twice. *)
Lemma keys_distinct_take cls k :
  NoDup (map call_key (take k (log (fst (body cls accept_all empty_tree))))).
Proof. rewrite <- firstn_map. apply NoDup_take, keys_distinct_full. Qed.

Lemma keys_distinct_any_run cls tk :
  NoDup (map call_key (headers (fst (body cls tk empty_tree)))) /\
  NoDup (map call_key (log (fst (body cls tk empty_tree)))).
Proof.
  pose proof (faithful_body_of cls) as Hm. split.
  - destruct (headers_initial_segment (body cls) tk Hm) as [k ->].
    rewrite headers_full_log by exact Hm. apply keys_distinct_take.
  - destruct (log_initial_segment (body cls) tk Hm) as [k ->].
    apply keys_distinct_take.
Qed.

(** [new_] on its own: an accepted instantiation appends one construct that
    holds the class, the id and the props of the call. *)
Lemma new_adds_one k scope id props tk t t' r :
  new_ k scope id props tk t = (t', inr r) ->
  nodes t' = nodes t ++ [mkNode (mkCall scope k id props) None [] []] /\
  r = VRef (scope ++ [id]).
Proof.
  unfold new_. destruct (tk t _); intros E; inversion E; subst. cbn. auto.
Qed.

(** An example of a failing run: the toolkit raises at the key pair, the
    eighth instantiation of part_003 has been made, the ninth has not. *)
Example raise_at_keypair :
  let tk : Toolkit := fun _ c => String.eqb (call_id c) "ssh-keypair" in
  let '(t, r) := Part003.constructor tk empty_tree in
  map call_id (headers t) =
    ["PublicVpc"; "PublicSubnet"; "PublicRouteTable";
     "PublicRouteTableSubnetAssociation1"; "PublicInternetGateway";
     "PublicVpcIgwAttachment"; "PublicInternetAccessRoute";
     "PublicSecurityGroup"] /\
  r = inl (Raised (mkCall [] CfnKeyPair "ssh-keypair"
                     [("keyName", VStr "public-ssh-key-pair")])).
Proof. vm_compute. split; reflexivity. Qed.

(** ** CIDR blocks as sets of addresses *)

Lemma shiftr_coarser (x p q : Z) :
  (0 <= q <= p)%Z -> (p <= 32)%Z ->
  Z.shiftr x (32 - q) = Z.shiftr (Z.shiftr x (32 - p)) (p - q).
Proof.
  intros Hq Hp. rewrite Z.shiftr_shiftr by lia. f_equal. lia.
Qed.

(** [cidr_within a b] decides that every address of [a] is one of [b]. *)
Lemma cidr_within_sound (a b : Cidr) :
  cidr_within a b = true -> forall ip, in_cidr a ip -> in_cidr b ip.
Proof.
  unfold cidr_within, in_cidr. intros H ip [Hr E].
  apply andb_prop in H as [H Heq]. apply andb_prop in H as [H H32].
  apply andb_prop in H as [H0 Hle].
  apply Z.leb_le in H0, Hle, H32. apply Z.eqb_eq in Heq.
  split; [exact Hr|].
  rewrite (shiftr_coarser ip (plen a) (plen b)) by lia.
  rewrite E, <- (shiftr_coarser (base a) (plen a) (plen b)) by lia.
  exact Heq.
Qed.

(** [cidr_disjoint a b] decides that no address is in both. *)
Lemma cidr_disjoint_sound (a b : Cidr) :
  cidr_disjoint a b = true -> forall ip, ~ (in_cidr a ip /\ in_cidr b ip).
Proof.
  unfold cidr_disjoint, in_cidr. intros H ip [[_ Ea] [_ Eb]].
  apply andb_prop in H as [H Hne]. apply andb_prop in H as [H0 H32].
  apply Z.leb_le in H0, H32. apply negb_true_iff, Z.eqb_neq in Hne.
  apply Hne.
  rewrite (shiftr_coarser (base a) (plen a)) by lia.
  rewrite (shiftr_coarser (base b) (plen b)) by lia.
  rewrite <- Ea, <- Eb.
  rewrite <- !shiftr_coarser by lia. reflexivity.
Qed.

Lemma Path_eqb_eq (p q : Path) : Path_eqb p q = true -> p = q.
Proof. unfold Path_eqb. intros H. apply bool_decide_eq_true in H. exact H. Qed.

Lemma Kind_eqb_eq (a b : Kind) : Kind_eqb a b = true -> a = b.
Proof. destruct a, b; cbn; intros H; try discriminate; reflexivity. Qed.

Lemma find_call_spec p cs c :
  find_call p cs = Some c -> c ∈ cs /\ call_path c = p.
Proof.
  unfold find_call. intros H. apply find_some in H as [Hin Hp].
  split; [apply list_elem_of_In; exact Hin | apply Path_eqb_eq; exact Hp].
Qed.

Lemma member_target_spec member v p :
  member_target member v = Some p -> v = Some (VMember (VRef p) member).
Proof.
  unfold member_target. destruct v as [[]|]; try discriminate.
  destruct base0; try discriminate.
  destruct (String.eqb member0 member) eqn:E; [|discriminate].
  apply String.eqb_eq in E. intros [= ->]. subst. reflexivity.
Qed.

(** The parent found for a subnet is a declared VPC, the one whose [vpcId]
    the subnet was given. *)
Lemma parent_vpc_spec cs c v :
  parent_vpc cs c = Some v ->
  v ∈ cs /\ call_kind v = Vpc /\
  field "vpcId" (call_props c) = Some (VMember (VRef (call_path v)) "vpcId").
Proof.
  unfold parent_vpc.
  destruct (member_target _ _) as [p|] eqn:Hm; [|discriminate].
  destruct (find_call p cs) as [d|] eqn:Hf; [|discriminate].
  destruct (Kind_eqb (call_kind d) Vpc) eqn:Hk; [|discriminate].
  intros [= <-]. apply find_call_spec in Hf as [Hin <-].
  apply member_target_spec in Hm. apply Kind_eqb_eq in Hk. auto.
Qed.

Lemma subnet_within_vpc_sound cs c :
  subnet_within_vpc cs c = true -> subnet_contained cs c.
Proof.
  unfold subnet_within_vpc, subnet_contained. intros H Hk.
  rewrite Hk in H. cbn in H.
  destruct (cidr_field "cidrBlock" c) as [a|]; [|discriminate].
  destruct (parent_vpc cs c) as [v|] eqn:Hp; [|discriminate].
  destruct (cidr_field "cidr" v) as [b|] eqn:Hb; [|discriminate].
  apply parent_vpc_spec in Hp as (Hin & Hv & Hf).
  exists v, a, b. repeat split; auto.
  all: apply (cidr_within_sound a b H); assumption.
Qed.

(** * The claims *)

Lemma hardcoded_full v : forallb hardcoded (nodes (full_tree v)) = true.
Proof. destruct v; vm_compute; reflexivity. Qed.

(** What [hardcoded] says of a CIDR block or availability zone. *)
Lemma hardcoded_network_literal (n : Node) (k : string) (val : Value) :
  hardcoded n = true ->
  (k, val) ∈ call_props (n_decl n) ->
  network_key k = true ->
  exists s, val = VStr s.
Proof.
  unfold hardcoded. intros H Hin Hk.
  apply andb_prop in H as [H _].
  apply forallb_Forall in H. rewrite Forall_forall in H.
  specialize (H _ Hin). cbn in H. rewrite Hk in H.
  destruct val; try discriminate. eauto.
Qed.

(** C1. Two constructions of [VpcPluralsightStack] in the same scope and
    with the same id that both return, whatever props they are given and
    whatever the toolkit does, leave the same trees of declarations in the
    scope; and in the stack just built every CIDR block, availability zone,
    tag and ingress peer is written as a literal. *)
Theorem C1_declarations_do_not_depend_on_inputs
    (v : Version) (tk1 tk2 : Toolkit) (scope : Scope) (id : string)
    (props1 props2 : option Props) (s1 s2 : Scope) :
  VpcPluralsightStack_of v tk1 scope id props1 = (s1, inr tt) ->
  VpcPluralsightStack_of v tk2 scope id props2 = (s2, inr tt) ->
  map st_tree s1 = map st_tree s2 /\
  exists t, s1 = scope ++ [mkStack id props1 t] /\
            Forall (fun n => hardcoded n = true) (nodes t).
Proof.
  unfold VpcPluralsightStack_of. rewrite !Stack_constructor_eq.
  intros E1 E2. inversion E1 as [[Hs1 Hr1]]. inversion E2 as [[Hs2 Hr2]].
  assert (H1 : fst (constructor_of v tk1 empty_tree) = full_tree v).
  { apply (normal_return v tk1).
    destruct (constructor_of v tk1 empty_tree); cbn in *. congruence. }
  assert (H2 : fst (constructor_of v tk2 empty_tree) = full_tree v).
  { apply (normal_return v tk2).
    destruct (constructor_of v tk2 empty_tree); cbn in *. congruence. }
  rewrite H1, H2. split.
  - rewrite !map_app. reflexivity.
  - eexists. split; [reflexivity|]. apply forallb_Forall, hardcoded_full.
Qed.

Lemma C1_declarations_do_not_depend_on_inputs_witness :
  VpcPluralsightStack_of V_part003 accept_all App_new "VpcPluralsightStack" None
    = ([mkStack "VpcPluralsightStack" None (full_tree V_part003)], inr tt) /\
  VpcPluralsightStack_of V_part003 accept_all App_new "VpcPluralsightStack"
    (Some [("stackName", VStr "other")])
    = ([mkStack "VpcPluralsightStack" (Some [("stackName", VStr "other")])
          (full_tree V_part003)], inr tt) /\
  (map st_tree [mkStack "VpcPluralsightStack" None (full_tree V_part003)] =
   map st_tree [mkStack "VpcPluralsightStack" (Some [("stackName", VStr "other")])
                  (full_tree V_part003)] /\
   exists t, [mkStack "VpcPluralsightStack" None (full_tree V_part003)]
             = App_new ++ [mkStack "VpcPluralsightStack" None t] /\
             Forall (fun n => hardcoded n = true) (nodes t)).
Proof.
  split; [vm_compute; reflexivity|]. split; [vm_compute; reflexivity|].
  apply (C1_declarations_do_not_depend_on_inputs V_part003 accept_all accept_all
           App_new "VpcPluralsightStack" None (Some [("stackName", VStr "other")]));
    vm_compute; reflexivity.
Defined.

Lemma signature_full v :
  map signature (headers (full_tree v)) = declared_sequence v.
Proof. destruct v; vm_compute; reflexivity. Qed.

(** C4. A construction of [VpcPluralsightStack] that returns has added to
    the scope one stack whose tree is the fixed tree of that definition,
    whatever the toolkit, the scope, the id and the props: the classes and
    ids declared are, in order, the constant table [declared_sequence], of 7,
    12, 18 or 36 entries. *)
Theorem C4_constructor_is_a_fixed_sequence
    (v : Version) (tk : Toolkit) (scope : Scope) (id : string)
    (props : option Props) (s : Scope) :
  VpcPluralsightStack_of v tk scope id props = (s, inr tt) ->
  s = scope ++ [mkStack id props (full_tree v)] /\
  map signature (headers (full_tree v)) = declared_sequence v /\
  length (nodes (full_tree v)) =
    match v with V_part002 => 7 | V_part001 => 12 | V_lib => 18 | V_part003 => 36 end.
Proof.
  unfold VpcPluralsightStack_of. rewrite Stack_constructor_eq.
  intros E. inversion E as [[Hs Hr]].
  assert (H : fst (constructor_of v tk empty_tree) = full_tree v).
  { apply (normal_return v tk).
    destruct (constructor_of v tk empty_tree); cbn in *. congruence. }
  rewrite H. split; [reflexivity|]. split; [apply signature_full|].
  destruct v; vm_compute; reflexivity.
Qed.

Lemma C4_constructor_is_a_fixed_sequence_witness :
  VpcPluralsightStack_of V_part003 accept_all App_new "VpcPluralsightStack" None
    = ([mkStack "VpcPluralsightStack" None (full_tree V_part003)], inr tt) /\
  ([mkStack "VpcPluralsightStack" None (full_tree V_part003)]
     = App_new ++ [mkStack "VpcPluralsightStack" None (full_tree V_part003)] /\
   map signature (headers (full_tree V_part003)) = declared_sequence V_part003 /\
   length (nodes (full_tree V_part003)) = 36).
Proof.
  split; [vm_compute; reflexivity|].
  apply (C4_constructor_is_a_fixed_sequence V_part003 accept_all App_new
           "VpcPluralsightStack" None).
  vm_compute; reflexivity.
Defined.

(** C7. In every constructor of the repository, under any toolkit, the pairs
    of scope and id of the declared constructs are pairwise distinct, and so
    are those of the instantiations attempted. *)
Theorem C7_ids_distinct_within_scope (cls : Class) (tk : Toolkit) :
  NoDup (map call_key (headers (fst (body cls tk empty_tree)))) /\
  NoDup (map call_key (log (fst (body cls tk empty_tree)))).
Proof.
  apply keys_distinct_any_run.
Qed.


Lemma declared_categories_app v :
  declared_categories (fst (app_with v accept_all)) =
  match v with
  | V_part002 => [CatVpc; CatSubnet; CatRouteTable; CatGateway]
  | V_part001 | V_lib =>
      [CatVpc; CatSubnet; CatRouteTable; CatGateway; CatSecurityGroup; CatInstance]
  | V_part003 => all_categories
  end.
Proof. destruct v; vm_compute; reflexivity. Qed.

Lemma app_with_normal_return v tk s :
  app_with v tk = (s, inr tt) -> s = fst (app_with v accept_all).
Proof.
  unfold app_with, VpcPluralsightStack_of. rewrite !Stack_constructor_eq.
  intros E. inversion E as [[Hs Hr]]. cbn [fst].
  rewrite (normal_return v tk (fst (constructor_of v tk empty_tree)));
    [reflexivity|].
  destruct (constructor_of v tk empty_tree) as [t r].
  cbn in *. congruence.
Qed.

(** C2, as stated, fails: the entry point imports the stack of
    src/lib/vpc-pluralsight-stack.ts, and constructing the application with
    it declares neither a VPN or peering construct nor a flow log. *)
Lemma C2_application_lacks_peering_and_flow_log :
  app accept_all = (fst (app accept_all), inr tt) /\
  ~ declares_every_kind (fst (app accept_all)).
Proof.
  split; [vm_compute; reflexivity|].
  intros H. specialize (H CatFlowLog). vm_compute in H. discriminate.
Qed.

(** C2, amended.  A constructed application declares exactly these kinds:
    with the stack the entry point imports (src/lib), a VPC, a subnet, a route
    table, a gateway, a security group and an instance, and no VPN or peering
    construct and no flow log; with the stack of part_003, all eight. *)
Theorem C2_kinds_declared_by_the_application
    (v : Version) (tk : Toolkit) (s : Scope) :
  app_with v tk = (s, inr tt) ->
  declared_categories s =
  match v with
  | V_part002 => [CatVpc; CatSubnet; CatRouteTable; CatGateway]
  | V_part001 | V_lib =>
      [CatVpc; CatSubnet; CatRouteTable; CatGateway; CatSecurityGroup; CatInstance]
  | V_part003 =>
      [CatVpc; CatSubnet; CatRouteTable; CatGateway; CatSecurityGroup;
       CatInstance; CatVpnOrPeering; CatFlowLog]
  end.
Proof.
  intros E. rewrite (app_with_normal_return v tk s E).
  apply declared_categories_app.
Qed.

Lemma C2_kinds_declared_by_the_application_witness :
  app_with V_lib accept_all = (fst (app accept_all), inr tt) /\
  declared_categories (fst (app accept_all)) =
    [CatVpc; CatSubnet; CatRouteTable; CatGateway; CatSecurityGroup; CatInstance].
Proof.
  split; [vm_compute; reflexivity|].
  apply (C2_kinds_declared_by_the_application V_lib accept_all).
  vm_compute; reflexivity.
Defined.

Lemma has_string_field_false k s c :
  has_string_field k s c = false -> string_field k c <> Some s.
Proof.
  unfold has_string_field, string_field.
  destruct (field k (call_props c)) as [[]|]; try discriminate.
  intros H [= ->]. rewrite String.eqb_refl in H. discriminate.
Qed.

Lemma transit_free_spec c :
  transit_free c = true ->
  transit_kind (call_kind c) = false /\
  string_field "cidr" c <> Some "10.3.0.0/16" /\
  string_field "instanceName" c <> Some "transit-csr" /\
  call_id c ∉ transit_ids.
Proof.
  unfold transit_free. intros H.
  apply andb_prop in H as [H Hid]. apply andb_prop in H as [H Hname].
  apply andb_prop in H as [Hk Hcidr].
  apply negb_true_iff in Hk, Hcidr, Hname, Hid.
  repeat split; auto using has_string_field_false.
  apply bool_decide_eq_false in Hid. exact Hid.
Qed.

Lemma transit_free_full v :
  forallb transit_free (headers (full_tree v)) = true.
Proof. destruct v; vm_compute; reflexivity. Qed.

(** Every declaration of [TransitVpcConstruct] is one that [transit_free]
    rejects, whatever its props. *)
Lemma transit_declarations_flagged props :
  forallb (fun c => negb (transit_free c))
    (headers (fst (Part000.TransitVpcConstruct props accept_all empty_tree))) = true.
Proof. vm_compute. reflexivity. Qed.

Lemma transit_ids_any_props props :
  map call_id (headers (fst (Part000.TransitVpcConstruct props accept_all empty_tree)))
  = transit_ids.
Proof. vm_compute. reflexivity. Qed.

(** C5. The entry point registers one stack, [VpcPluralsightStack], and
    nothing else.  Under any toolkit, and with any of the definitions of the
    stack, no construct in it is of a class that only [TransitVpcConstruct]
    instantiates (VPN gateway, VPN connection, customer gateway, route
    propagation, the transit construct itself), none has the CIDR block
    10.3.0.0/16 or the instance name of the Cisco router, and none has an id
    that [TransitVpcConstruct] uses. *)
Theorem C5_transit_construct_is_never_instantiated (v : Version) (tk : Toolkit) :
  exists t r,
    app_with v tk = ([mkStack "VpcPluralsightStack" None t], r) /\
    Forall (fun c =>
      transit_kind (call_kind c) = false /\
      string_field "cidr" c <> Some "10.3.0.0/16" /\
      string_field "instanceName" c <> Some "transit-csr" /\
      call_id c ∉ transit_ids) (headers t).
Proof.
  unfold app_with, VpcPluralsightStack_of. rewrite Stack_constructor_eq.
  eexists _, _. split; [reflexivity|].
  apply (Forall_headers_any_run _ (constructor_of v) tk (faithful_constructor v)).
  pose proof (forallb_Forall _ _ (transit_free_full v)) as H.
  eapply Forall_impl; [exact H|]. intros c. apply transit_free_spec.
Qed.

(** C6. In the stack of part_003 the peering connection is the construct
    [PCX]; the route to 10.2.2.0/24 of the public route table and the route to
    10.1.254.0/24 of the shared route table are declared with
    [vpcPeeringConnectionId] set to [vpcPeeringConnection.peerOwnerId], which
    is neither the connection itself nor its [ref] or [attrId]; no other
    declaration has a [vpcPeeringConnectionId]. *)
Theorem C6_peering_routes_point_at_peerOwnerId (tk : Toolkit) (t : Tree) :
  Part003.constructor tk empty_tree = (t, inr tt) ->
  let pcx := VRef ["PCX"] in
  option_map call_kind (find_call ["PCX"] (headers t))
    = Some CfnVPCPeeringConnection /\
  find_call ["public-route-table-peering-route"] (headers t) =
    Some (mkCall [] CfnRoute "public-route-table-peering-route"
            [("routeTableId", VMember (VRef ["PublicRouteTable"]) "attrRouteTableId");
             ("destinationCidrBlock", VStr "10.2.2.0/24");
             ("vpcPeeringConnectionId", VMember pcx "peerOwnerId")]) /\
  find_call ["shared-route-table-peering-route"] (headers t) =
    Some (mkCall [] CfnRoute "shared-route-table-peering-route"
            [("routeTableId", VMember (VRef ["SharedRouteTable"]) "attrRouteTableId");
             ("destinationCidrBlock", VStr "10.1.254.0/24");
             ("vpcPeeringConnectionId", VMember pcx "peerOwnerId")]) /\
  map call_id
      (filter (fun c => is_Some (field "vpcPeeringConnectionId" (call_props c)))
              (headers t))
    = ["public-route-table-peering-route"; "shared-route-table-peering-route"] /\
  VMember pcx "peerOwnerId" <> pcx /\
  VMember pcx "peerOwnerId" <> VMember pcx "ref" /\
  VMember pcx "peerOwnerId" <> VMember pcx "attrId".
Proof.
  intros E. apply (normal_return V_part003) in E. subst t.
  repeat split; try (vm_compute; reflexivity); discriminate.
Qed.

Lemma C6_peering_routes_point_at_peerOwnerId_witness :
  Part003.constructor accept_all empty_tree = (full_tree V_part003, inr tt) /\
  option_map (fun c => field "vpcPeeringConnectionId" (call_props c))
    (find_call ["public-route-table-peering-route"] (headers (full_tree V_part003)))
  = Some (Some (VMember (VRef ["PCX"]) "peerOwnerId")).
Proof.
  split; [vm_compute; reflexivity|].
  destruct (C6_peering_routes_point_at_peerOwnerId accept_all (full_tree V_part003))
    as (_ & H & _); [vm_compute; reflexivity|].
  rewrite H. reflexivity.
Defined.

Lemma no_configuration_full cls :
  forallb (fun c => negb (carries_configuration c))
          (headers (fst (body cls accept_all empty_tree))) = true.
Proof. destruct cls as [[]|props]; vm_compute; reflexivity. Qed.

Lemma no_configuration_any_run cls tk :
  Forall (fun c => carries_configuration c = false)
         (headers (fst (body cls tk empty_tree))).
Proof.
  apply Forall_headers_any_run; [apply faithful_body_of|].
  pose proof (forallb_Forall _ _ (no_configuration_full cls)) as H.
  eapply Forall_impl; [exact H|]. intros c Hc. apply negb_true_iff. exact Hc.
Qed.

Lemma transit_vpn_connection props :
  find_node ["transit-shared-vpc-vpn-conn"]
    (fst (Part000.TransitVpcConstruct props accept_all empty_tree)) =
  Some (mkNode
          (mkCall [] VpnConnection "transit-shared-vpc-vpn-conn"
             [("vpc", Part000.sharedVpc props);
              ("ip", VMember (VRef ["cisco-router-instance"]) "instancePublicIp")])
          (Some DESTROY) [] []).
Proof. vm_compute. reflexivity. Qed.

Lemma transit_router_instance props :
  find_node ["cisco-router-instance"]
    (fst (Part000.TransitVpcConstruct props accept_all empty_tree)) =
  Some (mkNode
          (mkCall [] Instance "cisco-router-instance"
             [("vpc", VRef ["transit-vpc"]);
              ("keyName", VStr (Part000.sshKeyPairName props));
              ("privateIpAddress", VStr "10.3.0.10");
              ("vpcSubnets", VObj [("subnets", VArr [VRef ["transit-vpc-subnet"]])]);
              ("instanceType", VNew "ec2.InstanceType" [VStr "t2.medium"]);
              ("instanceName", VStr "transit-csr");
              ("machineImage",
               VNew "ec2.LookupMachineImage"
                 [VObj [("name",
                         VStr "Cisco Cloud Services Router (CSR) 1000V - BYOL for Maximum Performance")]])])
          (Some DESTROY) [] []).
Proof. vm_compute. reflexivity. Qed.

Lemma transit_no_configuration props :
  Forall (fun c => carries_configuration c = false)
         (headers (fst (Part000.TransitVpcConstruct props accept_all empty_tree))).
Proof.
  eapply Forall_impl.
  - apply (forallb_Forall (fun c => negb (carries_configuration c))).
    vm_compute. reflexivity.
  - intros c Hc. apply negb_true_iff. exact Hc.
Qed.

(** C9. A [TransitVpcConstruct] that returns has declared the VPN connection
    and the Cisco router instance exactly as written below: the instance has
    the seven props of the source and the connection two, with the removal
    policy and nothing else attached.  No declaration of it, and none of any
    other constructor of the repository under any toolkit, has a prop that
    carries a script or a configuration; the state of a constructor is the
    tree alone, so no statement fetches or applies one. *)
Theorem C9_no_router_configuration_is_declared
    (props : Part000.TransitVpcConstructProps) (tk : Toolkit) (t : Tree) :
  Part000.TransitVpcConstruct props tk empty_tree = (t, inr tt) ->
  find_node ["transit-shared-vpc-vpn-conn"] t =
    Some (mkNode
            (mkCall [] VpnConnection "transit-shared-vpc-vpn-conn"
               [("vpc", Part000.sharedVpc props);
                ("ip", VMember (VRef ["cisco-router-instance"]) "instancePublicIp")])
            (Some DESTROY) [] []) /\
  find_node ["cisco-router-instance"] t =
    Some (mkNode
            (mkCall [] Instance "cisco-router-instance"
               [("vpc", VRef ["transit-vpc"]);
                ("keyName", VStr (Part000.sshKeyPairName props));
                ("privateIpAddress", VStr "10.3.0.10");
                ("vpcSubnets", VObj [("subnets", VArr [VRef ["transit-vpc-subnet"]])]);
                ("instanceType", VNew "ec2.InstanceType" [VStr "t2.medium"]);
                ("instanceName", VStr "transit-csr");
                ("machineImage",
                 VNew "ec2.LookupMachineImage"
                   [VObj [("name",
                           VStr "Cisco Cloud Services Router (CSR) 1000V - BYOL for Maximum Performance")]])])
            (Some DESTROY) [] []) /\
  Forall (fun c => carries_configuration c = false) (headers t) /\
  forall cls tk',
    Forall (fun c => carries_configuration c = false)
           (headers (fst (body cls tk' empty_tree))).
Proof.
  intros E.
  apply (normal_return_of _ tk t (faithful_TransitVpcConstruct props)) in E.
  subst t.
  split; [apply transit_vpn_connection|].
  split; [apply transit_router_instance|].
  split; [apply transit_no_configuration|].
  intros cls tk'. apply no_configuration_any_run.
Qed.

Lemma C9_no_router_configuration_is_declared_witness :
  Part000.TransitVpcConstruct
    (Part000.mkTransitProps "public-ssh-key-pair" (VRef ["SharedVpc"]))
    accept_all empty_tree
  = (fst (Part000.TransitVpcConstruct
            (Part000.mkTransitProps "public-ssh-key-pair" (VRef ["SharedVpc"]))
            accept_all empty_tree), inr tt) /\
  option_map (fun n => map fst (call_props (n_decl n)))
    (find_node ["cisco-router-instance"]
       (fst (Part000.TransitVpcConstruct
               (Part000.mkTransitProps "public-ssh-key-pair" (VRef ["SharedVpc"]))
               accept_all empty_tree)))
  = Some ["vpc"; "keyName"; "privateIpAddress"; "vpcSubnets"; "instanceType";
          "instanceName"; "machineImage"].
Proof.
  split; [vm_compute; reflexivity|].
  destruct (C9_no_router_configuration_is_declared
              (Part000.mkTransitProps "public-ssh-key-pair" (VRef ["SharedVpc"]))
              accept_all
              (fst (Part000.TransitVpcConstruct
                      (Part000.mkTransitProps "public-ssh-key-pair" (VRef ["SharedVpc"]))
                      accept_all empty_tree)))
    as (_ & H & _); [vm_compute; reflexivity|].
  rewrite H. reflexivity.
Defined.

Lemma subnets_within_full v :
  forallb (subnet_within_vpc (headers (full_tree v))) (headers (full_tree v)) = true.
Proof. destruct v; vm_compute; reflexivity. Qed.

(** C10. In a stack that has been constructed, every subnet names a declared
    VPC as its parent and every address of the subnet's CIDR block is an
    address of that VPC's block; the subnets and their VPCs are
    10.1.254.0/24 in 10.1.0.0/16, then 10.2.2.0/24 and 10.2.254.0/24 in
    10.2.0.0/16, as far as the definition goes.  In the stack of part_003 the
    peering connection [PCX] joins the VPCs with blocks 10.1.0.0/16 and
    10.2.0.0/16, and no address lies in both. *)
Theorem C10_subnets_inside_their_vpc_and_peers_disjoint
    (v : Version) (tk : Toolkit) (t : Tree) :
  constructor_of v tk empty_tree = (t, inr tt) ->
  Forall (subnet_contained (headers t)) (headers t) /\
  subnet_table (headers t) =
    take (match v with V_part002 | V_part001 => 1 | V_lib => 2 | V_part003 => 3 end)
      [(Some "10.1.254.0/24", Some "10.1.0.0/16");
       (Some "10.2.2.0/24", Some "10.2.0.0/16");
       (Some "10.2.254.0/24", Some "10.2.0.0/16")] /\
  (v = V_part003 ->
   exists pcx va vb a b,
     find_call ["PCX"] (headers t) = Some pcx /\
     call_kind pcx = CfnVPCPeeringConnection /\
     peered_vpcs (headers t) pcx = Some (va, vb) /\
     call_kind va = Vpc /\ call_kind vb = Vpc /\
     string_field "cidr" va = Some "10.1.0.0/16" /\
     string_field "cidr" vb = Some "10.2.0.0/16" /\
     parse_cidr "10.1.0.0/16" = Some a /\
     parse_cidr "10.2.0.0/16" = Some b /\
     forall ip, ~ (in_cidr a ip /\ in_cidr b ip)).
Proof.
  intros E. apply (normal_return v) in E. subst t. split; [|split].
  - pose proof (forallb_Forall _ _ (subnets_within_full v)) as H.
    eapply Forall_impl; [exact H|]. intros c. apply subnet_within_vpc_sound.
  - destruct v; vm_compute; reflexivity.
  - intros ->. eexists _, _, _, _, _.
    split; [vm_compute; reflexivity|].
    split; [reflexivity|].
    split; [vm_compute; reflexivity|].
    split; [reflexivity|]. split; [reflexivity|].
    split; [reflexivity|]. split; [reflexivity|].
    split; [vm_compute; reflexivity|].
    split; [vm_compute; reflexivity|].
    apply cidr_disjoint_sound. vm_compute. reflexivity.
Qed.

Lemma C10_subnets_inside_their_vpc_and_peers_disjoint_witness :
  constructor_of V_part003 accept_all empty_tree = (full_tree V_part003, inr tt) /\
  subnet_table (headers (full_tree V_part003)) =
    [(Some "10.1.254.0/24", Some "10.1.0.0/16");
     (Some "10.2.2.0/24", Some "10.2.0.0/16");
     (Some "10.2.254.0/24", Some "10.2.0.0/16")].
Proof.
  split; [vm_compute; reflexivity|].
  destruct (C10_subnets_inside_their_vpc_and_peers_disjoint
              V_part003 accept_all (full_tree V_part003))
    as (_ & H & _); [vm_compute; reflexivity|].
  exact H.
Defined.

(** * Further properties of the constructors *)

(** ** Checking every run by the position of the first rejected call *)

Lemma positional_ret {A} (a : A) : positional (ret a).
Proof. intros tk t. cbn. split; [lia|]. reflexivity. Qed.

Lemma positional_bind {A B} (m : M A) (f : A -> M B) :
  positional m -> (forall a, positional (f a)) -> positional (bind m f).
Proof.
  intros Hm Hf tk t. unfold bind.
  pose proof (Hm tk t) as H1.
  destruct (m tk t) as [t' [e|a]].
  - destruct H1 as [Hlen Hcut]. rewrite Hcut. auto.
  - destruct H1 as [Hlen Hcut].
    pose proof (Hf a tk t') as H2.
    destruct (f a tk t') as [t1 [e|b]].
    + destruct H2 as [Hlen2 Hcut2]. split; [lia|].
      rewrite Hcut by lia. exact Hcut2.
    + destruct H2 as [Hlen2 Hcut2]. split; [lia|].
      intros k Hk. rewrite Hcut by lia. apply Hcut2. exact Hk.
Qed.

Lemma positional_new k scope id props : positional (new_ k scope id props).
Proof.
  intros tk t. unfold new_, cut. cbn.
  destruct (tk t _); cbn; rewrite length_app; cbn.
  - split; [lia|].
    replace (length (log t) + 1 - 1) with (length (log t)) by lia.
    rewrite Nat.eqb_refl. reflexivity.
  - split; [lia|]. intros j Hj.
    destruct (Nat.eqb_spec (length (log t)) j); [lia|reflexivity].
Qed.

Lemma positional_update target f :
  positional (fun _ t => (update_node target f t, inr tt)).
Proof. intros tk t. cbn. split; [lia|]. reflexivity. Qed.

Ltac positional_body :=
  repeat lazymatch goal with
  | |- positional (bind _ _) => apply positional_bind; [|intros ?]
  | |- positional (new_ _ _ _ _) => apply positional_new
  | |- positional (applyRemovalPolicy _ _) => apply positional_update
  | |- positional (addIngressRule _ _ _ _) => apply positional_update
  | |- positional (addToPolicy _ _) => apply positional_update
  | |- positional (addFlowLog _ _ _) => apply positional_new
  | |- positional (ret _) => apply positional_ret
  end.

Lemma positional_constructor v : positional (constructor_of v).
Proof.
  destruct v; cbn [constructor_of];
    [ unfold Part002.constructor | unfold Part001.constructor
    | unfold LibStack.constructor | unfold Part003.constructor ];
    positional_body.
Qed.

Lemma positional_TransitVpcConstruct props :
  positional (Part000.TransitVpcConstruct props).
Proof. unfold Part000.TransitVpcConstruct. positional_body. Qed.

Lemma positional_body_of cls : positional (body cls).
Proof.
  destruct cls; [apply positional_constructor | apply positional_TransitVpcConstruct].
Qed.

(** The number of instantiations a constructor makes when none fails. *)
Lemma attempts_full cls :
  length (log (fst (body cls accept_all empty_tree))) = attempts cls.
Proof. destruct cls as [[]|props]; vm_compute; reflexivity. Qed.

Lemma run_is_a_cut (m : M unit) (tk : Toolkit) :
  faithful m -> positional m ->
  exists k, k <= length (log (fst (m accept_all empty_tree))) /\
            m tk empty_tree = m (cut k) empty_tree.
Proof.
  intros Hf Hp.
  destruct (log_initial_segment m tk Hf) as [j Hj].
  pose proof (Hp tk empty_tree) as H.
  pose proof (Hp accept_all empty_tree) as H0.
  rewrite (accepting_run m Hf) in H0. destruct H0 as [_ H0].
  destruct (m tk empty_tree) as [t1 [e|[]]] eqn:E; cbn [fst] in *.
  - destruct H as [Hlen Hcut].
    exists (length (log t1) - 1). split; [|symmetry; exact Hcut].
    rewrite Hj, length_take. lia.
  - exists (length (log (fst (m accept_all empty_tree)))). split; [lia|].
    rewrite H0 by lia.
    rewrite (normal_return_of m tk t1 Hf E). reflexivity.
Qed.

(** A check that passes on the runs cut at every position passes on the run
    under any toolkit. *)
Lemma holds_in_every_run cls (P : Tree -> bool) :
  forallb (fun k => P (fst (body cls (cut k) empty_tree)))
          (seq 0 (S (attempts cls))) = true ->
  forall tk, P (fst (body cls tk empty_tree)) = true.
Proof.
  intros H tk.
  destruct (run_is_a_cut (body cls) tk (faithful_body_of cls) (positional_body_of cls))
    as (k & Hk & ->).
  rewrite attempts_full in Hk.
  rewrite forallb_forall in H. apply H. apply in_seq. lia.
Qed.

Ltac every_run :=
  lazymatch goal with
  | |- context [body ?cls _ empty_tree] =>
      apply holds_in_every_run; destruct cls as [[]|?]; vm_compute; reflexivity
  end.

Lemma nodes_of_cut cls k :
  k <= attempts cls ->
  nodes (fst (body cls (cut k) empty_tree)) =
  take k (nodes (fst (body cls accept_all empty_tree))).
Proof.
  destruct cls as [[]|props]; cbn [attempts]; intros Hk;
    do 38 (first [lia | destruct k as [|k]; [vm_compute; reflexivity|]]).
Qed.

Lemma nodes_any_run cls tk :
  exists k,
    nodes (fst (body cls tk empty_tree)) =
    take k (nodes (fst (body cls accept_all empty_tree))).
Proof.
  destruct (run_is_a_cut (body cls) tk (faithful_body_of cls) (positional_body_of cls))
    as (k & Hk & ->).
  rewrite attempts_full in Hk. exists k. apply nodes_of_cut. exact Hk.
Qed.

Lemma Forall_nodes_any_run (P : Node -> Prop) cls tk :
  Forall P (nodes (fst (body cls accept_all empty_tree))) ->
  Forall P (nodes (fst (body cls tk empty_tree))).
Proof.
  intros H. destruct (nodes_any_run cls tk) as [k ->]. apply Forall_take, H.
Qed.

Lemma scopedb_sound out seen cs : scopedb seen cs = true -> scoped out seen cs.
Proof.
  revert seen. induction cs as [|c cs IH]; intros seen H; cbn in *; [exact I|].
  apply andb_prop in H as [H Hrest]. apply andb_prop in H as [Hscope Hrefs].
  split; [|split].
  - apply orb_prop in Hscope as [H|H]; apply bool_decide_eq_true in H; auto.
  - intros p Hp. left.
    apply forallb_Forall in Hrefs. rewrite Forall_forall in Hrefs.
    specialize (Hrefs p Hp). apply bool_decide_eq_true in Hrefs. exact Hrefs.
  - apply IH. exact Hrest.
Qed.

Lemma scoped_take out seen cs k : scoped out seen cs -> scoped out seen (take k cs).
Proof.
  revert seen k. induction cs as [|c cs IH]; intros seen [|k] H; cbn in *; auto.
  destruct H as (H1 & H2 & H3). auto.
Qed.

Ltac solve_member :=
  lazymatch goal with
  | H : ?p ∈ ?l |- _ \/ ?p ∈ ?l => right; exact H
  | |- _ \/ _ => left; refine (bool_decide_unpack _ _); vm_compute; exact I
  end.

Ltac split_member H :=
  repeat first
    [ apply elem_of_nil in H; destruct H
    | apply elem_of_app in H; destruct H as [H|H]
    | apply elem_of_cons in H; destruct H as [->|H] ].

Ltac solve_scoped :=
  repeat lazymatch goal with
  | |- True => exact I
  | |- _ /\ _ => split
  | |- _ = this \/ _ =>
      first [left; reflexivity
            | right; refine (bool_decide_unpack _ _); vm_compute; exact I]
  | |- forall p, _ -> _ =>
      let p := fresh "p" in let H := fresh "H" in
      intros p H; split_member H; solve_member
  end.

Lemma transit_scoped props :
  scoped (refs (Part000.sharedVpc props)) []
    (headers (fst (Part000.TransitVpcConstruct props accept_all empty_tree))).
Proof.
  destruct props as [name shared].
  let cs := eval vm_compute in
    (headers (fst (Part000.TransitVpcConstruct (Part000.mkTransitProps name shared)
                     accept_all empty_tree))) in
  replace (headers (fst (Part000.TransitVpcConstruct (Part000.mkTransitProps name shared)
                     accept_all empty_tree))) with cs by (vm_compute; reflexivity).
  cbn [Part000.sharedVpc].
  cbn [scoped call_scope call_refs call_props call_path call_id concat map snd refs app].
  solve_scoped.
Qed.

Lemma scoped_full cls :
  scoped (outside cls) [] (headers (fst (body cls accept_all empty_tree))).
Proof.
  destruct cls as [v|props].
  - apply scopedb_sound. destruct v; vm_compute; reflexivity.
  - exact (transit_scoped props).
Qed.

(** X3. Under any toolkit, every construct is declared in [this] or in a
    construct declared before it, and every construct its props refer to has
    been declared before it; the transit construct refers, besides, to the
    shared VPC it is given. *)
Theorem X3_references_point_to_earlier_constructs (cls : Class) (tk : Toolkit) :
  scoped (outside cls) [] (headers (fst (body cls tk empty_tree))).
Proof.
  destruct (headers_initial_segment (body cls) tk (faithful_body_of cls)) as [k ->].
  apply scoped_take, scoped_full.
Qed.

Lemma removal_full cls :
  forallb (fun n =>
             match removal_of n, unmanaged_kind (call_kind (n_decl n)) with
             | Some DESTROY, false | None, true => true
             | _, _ => false
             end)
          (nodes (fst (body cls accept_all empty_tree))) = true.
Proof. destruct cls as [[]|props]; vm_compute; reflexivity. Qed.

(** X4. Under any toolkit, every construct in the tree is to be destroyed
    with its stack, by the removal policy applied to it or, for a log group,
    given in its props; the exceptions are the IAM role and the flow logs,
    which get no removal policy at all. *)
Theorem X4_removal_policy_on_all_but_role_and_flow_logs (cls : Class) (tk : Toolkit) :
  Forall (fun n =>
            removal_of n =
            if unmanaged_kind (call_kind (n_decl n)) then None else Some DESTROY)
         (nodes (fst (body cls tk empty_tree))).
Proof.
  apply Forall_nodes_any_run.
  pose proof (forallb_Forall _ _ (removal_full cls)) as H.
  eapply Forall_impl; [exact H|]. intros n. cbn beta.
  destruct (removal_of n) as [[]|], (unmanaged_kind _); congruence.
Qed.




Lemma in_cidrb_sound c ip : in_cidrb c ip = true -> in_cidr c ip.
Proof.
  unfold in_cidrb, in_cidr. intros H.
  apply andb_prop in H as [H He]. apply andb_prop in H as [H0 H1].
  apply Z.leb_le in H0. apply Z.ltb_lt in H1. apply Z.eqb_eq in He. auto.
Qed.

Lemma find_kind_spec k p cs c :
  find_kind k p cs = Some c -> find_call p cs = Some c /\ call_kind c = k.
Proof.
  unfold find_kind. destruct (find_call p cs) as [d|]; [|discriminate].
  destruct (Kind_eqb (call_kind d) k) eqn:E; [|discriminate].
  intros [= <-]. apply Kind_eqb_eq in E. auto.
Qed.

Lemma same_path_eq a b : same_path a b = true -> a = b.
Proof.
  destruct a, b; cbn; try discriminate. intros H.
  apply Path_eqb_eq in H. congruence.
Qed.

Lemma instance_placed_sound cs c :
  instance_placed cs c = true -> instance_in_subnet cs c.
Proof.
  unfold instance_placed, instance_in_subnet, is_kind. intros H Hk.
  rewrite Hk in H. cbn [Kind_eqb] in H.
  destruct (instance_subnet c) as [sp|] eqn:Hsp; [|discriminate].
  destruct (find_kind Subnet sp cs) as [s|] eqn:Hs; [|discriminate].
  apply find_kind_spec in Hs as [Hfind Hsub].
  apply andb_prop in H as [H _]. apply andb_prop in H as [Hvpc H].
  apply same_path_eq in Hvpc.
  destruct (cidr_field "cidrBlock" s) as [blk|] eqn:Hblk; [|discriminate].
  destruct (string_field "privateIpAddress" c) as [a|] eqn:Ha; [|discriminate].
  destruct (parse_ip a) as [ip|] eqn:Hip; [|discriminate].
  apply in_cidrb_sound in H.
  exists sp, s, blk, a, ip. repeat split; auto; apply H.
Qed.

(** X6. Under any toolkit, every instance in the tree is placed in a subnet
    declared before it that belongs to the instance's VPC, its private
    address is an address of that subnet's block, and its security group, if
    it has one, is of the same VPC. *)
Theorem X6_instances_sit_inside_their_subnet (cls : Class) (tk : Toolkit) :
  Forall (instance_in_subnet (headers (fst (body cls tk empty_tree))))
         (headers (fst (body cls tk empty_tree))) /\
  Forall (fun c => instance_placed (headers (fst (body cls tk empty_tree))) c = true)
         (headers (fst (body cls tk empty_tree))).
Proof.
  assert (H : Forall (fun c => instance_placed (headers (fst (body cls tk empty_tree))) c = true)
                     (headers (fst (body cls tk empty_tree)))).
  { apply forallb_Forall.
    revert tk. apply (holds_in_every_run cls
      (fun t => forallb (instance_placed (headers t)) (headers t))).
    destruct cls as [[]|props]; vm_compute; reflexivity. }
  split; [|exact H].
  eapply Forall_impl; [exact H|]. intros c. apply instance_placed_sound.
Qed.

(** X7. Under any toolkit, every route in the tree names a route table
    declared before it and a destination block that parses, and no two routes
    of one table have the same destination. *)
Theorem X7_routes_of_a_table_have_distinct_destinations
    (cls : Class) (tk : Toolkit) :
  Forall (fun c => route_formed (headers (fst (body cls tk empty_tree))) c = true)
         (headers (fst (body cls tk empty_tree))) /\
  NoDup (map route_key (routes (headers (fst (body cls tk empty_tree))))).
Proof.
  split.
  - apply forallb_Forall. revert tk.
    apply (holds_in_every_run cls
      (fun t => forallb (route_formed (headers t)) (headers t))).
    destruct cls as [[]|props]; vm_compute; reflexivity.
  - pose (P := fun t : Tree => bool_decide (NoDup (map route_key (routes (headers t))))).
    assert (H : forall tk', P (fst (body cls tk' empty_tree)) = true).
    { apply holds_in_every_run.
      destruct cls as [[]|props]; vm_compute; reflexivity. }
    exact (proj1 (bool_decide_eq_true _) (H tk)).
Qed.

(** X8. Under any toolkit, every association the constructor declares
    joins a subnet and a route table declared before it that belong to the
    same VPC. *)
Theorem X8_associations_join_subnet_and_table_of_one_vpc
    (cls : Class) (tk : Toolkit) :
  Forall (fun c => association_formed (headers (fst (body cls tk empty_tree))) c = true)
         (headers (fst (body cls tk empty_tree))).
Proof.
  apply forallb_Forall. revert tk.
  apply (holds_in_every_run cls
    (fun t => forallb (association_formed (headers t)) (headers t))).
  destruct cls as [[]|props]; vm_compute; reflexivity.
Qed.

(** X9. Under any toolkit, a route through a gateway goes to an internet
    gateway that an attachment declared before the route joins to the VPC of
    the route's table, and a route through an instance goes to an instance of
    that VPC declared before the route. *)
Theorem X9_routes_lead_into_the_vpc_of_their_table (cls : Class) (tk : Toolkit) :
  Forall (fun c => route_target_local (headers (fst (body cls tk empty_tree))) c = true)
         (headers (fst (body cls tk empty_tree))).
Proof.
  apply forallb_Forall. revert tk.
  apply (holds_in_every_run cls
    (fun t => forallb (route_target_local (headers t)) (headers t))).
  destruct cls as [[]|props]; vm_compute; reflexivity.
Qed.

(** X10. Under any toolkit, a route whose [vpcPeeringConnectionId] is read
    from the [peerOwnerId] of a peering connection sits in a route table of
    one of the two VPCs that connection is declared between, and its
    destination is the block of a subnet of the other, declared before the
    route.  The stack of part_003 has two such routes, both reading
    [PCX.peerOwnerId], and [PCX] itself is declared without a [peerOwnerId]. *)
Theorem X10_routes_reading_peerOwnerId_cross_the_peering
    (cls : Class) (tk : Toolkit) :
  Forall (fun c => peer_owner_route_crosses (headers (fst (body cls tk empty_tree))) c = true)
         (headers (fst (body cls tk empty_tree))) /\
  omap peer_owner_read (headers (full_tree V_part003)) = [["PCX"]; ["PCX"]] /\
  option_map (fun c => field "peerOwnerId" (call_props c))
    (find_call ["PCX"] (headers (full_tree V_part003))) = Some None.
Proof.
  split; [|split; vm_compute; reflexivity].
  apply forallb_Forall. revert tk.
  apply (holds_in_every_run cls
    (fun t => forallb (peer_owner_route_crosses (headers t)) (headers t))).
  destruct cls as [[]|props]; vm_compute; reflexivity.
Qed.


Lemma pairwise_lookup {A} (r : A -> A -> bool) (l : list A) i j x y :
  pairwise r l = true -> i < j ->
  l !! i = Some x -> l !! j = Some y -> r x y = true.
Proof.
  revert i j. induction l as [|a l IH]; intros i j H Hij Hi Hj; [discriminate|].
  cbn in H. apply andb_prop in H as [Ha Hl].
  destruct j as [|j]; [lia|]. cbn in Hj.
  destruct i as [|i].
  - cbn in Hi. injection Hi as ->.
    rewrite forallb_forall in Ha. apply Ha.
    apply list_elem_of_In, list_elem_of_lookup. eauto.
  - cbn in Hi. apply (IH i j); auto. lia.
Qed.

(** X12. Under any toolkit, two different subnets in the tree have blocks
    with no address in common. *)
Theorem X12_subnets_do_not_overlap
    (cls : Class) (tk : Toolkit) (i j : nat) (c d : Call) :
  i < j ->
  headers (fst (body cls tk empty_tree)) !! i = Some c ->
  headers (fst (body cls tk empty_tree)) !! j = Some d ->
  call_kind c = Subnet -> call_kind d = Subnet ->
  exists a b,
    cidr_field "cidrBlock" c = Some a /\
    cidr_field "cidrBlock" d = Some b /\
    forall ip, ~ (in_cidr a ip /\ in_cidr b ip).
Proof.
  intros Hij Hi Hj Hc Hd.
  assert (H : pairwise subnets_apart (headers (fst (body cls tk empty_tree))) = true).
  { revert tk Hi Hj.
    intros tk _ _. revert tk.
    apply (holds_in_every_run cls (fun t => pairwise subnets_apart (headers t))).
    destruct cls as [[]|props]; vm_compute; reflexivity. }
  pose proof (pairwise_lookup _ _ i j c d H Hij Hi Hj) as Hr.
  unfold subnets_apart, is_kind in Hr. rewrite Hc, Hd in Hr. cbn in Hr.
  destruct (cidr_field "cidrBlock" c) as [a|]; [|discriminate].
  destruct (cidr_field "cidrBlock" d) as [b|]; [|discriminate].
  exists a, b. repeat split. apply cidr_disjoint_sound. exact Hr.
Qed.

Lemma X12_subnets_do_not_overlap_witness :
  13 < 23 /\
  headers (fst (body (VpcPluralsightStackClass V_part003) accept_all empty_tree)) !! 13
    = Some (mkCall [] Subnet "DatabaseSubnet"
              [("vpcId", VMember (VRef ["SharedVpc"]) "vpcId");
               ("availabilityZone", VStr "eu-west-1a");
               ("cidrBlock", VStr "10.2.2.0/24")]) /\
  headers (fst (body (VpcPluralsightStackClass V_part003) accept_all empty_tree)) !! 23
    = Some (mkCall [] Subnet "shared-nat-subnet"
              [("vpcId", VMember (VRef ["SharedVpc"]) "vpcId");
               ("availabilityZone", VStr "eu-west-1a");
               ("cidrBlock", VStr "10.2.254.0/24")]) /\
  exists a b,
    parse_cidr "10.2.2.0/24" = Some a /\
    parse_cidr "10.2.254.0/24" = Some b /\
    forall ip, ~ (in_cidr a ip /\ in_cidr b ip).
Proof.
  split; [lia|]. split; [vm_compute; reflexivity|]. split; [vm_compute; reflexivity|].
  apply (X12_subnets_do_not_overlap (VpcPluralsightStackClass V_part003) accept_all
           13 23
           (mkCall [] Subnet "DatabaseSubnet"
              [("vpcId", VMember (VRef ["SharedVpc"]) "vpcId");
               ("availabilityZone", VStr "eu-west-1a");
               ("cidrBlock", VStr "10.2.2.0/24")])
           (mkCall [] Subnet "shared-nat-subnet"
              [("vpcId", VMember (VRef ["SharedVpc"]) "vpcId");
               ("availabilityZone", VStr "eu-west-1a");
               ("cidrBlock", VStr "10.2.254.0/24")]));
    first [lia | vm_compute; reflexivity].
Defined.

(** X13. The later definitions of the stack extend the earlier ones at the
    end: the full tree of part_001 is the first 12 constructs of the full
    tree of part_003 and that of src/lib the first 18, with everything
    attached to them; the tree of part_002 is the first 7 constructs of
    part_001 but for the id of the association of the public subnet. *)
Theorem X13_later_definitions_extend_earlier_ones :
  nodes (full_tree V_part001) = take 12 (nodes (full_tree V_part003)) /\
  nodes (full_tree V_lib) = take 18 (nodes (full_tree V_part003)) /\
  nodes (full_tree V_part002) =
    <[3 := mkNode
             (mkCall [] CfnSubnetRouteTableAssociation
                "PublicRouteTableSubnetAssociation"
                [("subnetId", VMember (VRef ["PublicSubnet"]) "subnetId");
                 ("routeTableId", VMember (VRef ["PublicRouteTable"]) "attrRouteTableId")])
             (Some DESTROY) [] []]>
      (take 7 (nodes (full_tree V_part001))) /\
  option_map (fun n => call_id (n_decl n)) (nodes (full_tree V_part001) !! 3)
    = Some "PublicRouteTableSubnetAssociation1".
Proof. repeat split; vm_compute; reflexivity. Qed.

Lemma transit_without_props p q :
  map without_props_fields
      (headers (fst (Part000.TransitVpcConstruct p accept_all empty_tree))) =
  map without_props_fields
      (headers (fst (Part000.TransitVpcConstruct q accept_all empty_tree))).
Proof. vm_compute. reflexivity. Qed.

Lemma transit_props_fields p :
  let cs := headers (fst (Part000.TransitVpcConstruct p accept_all empty_tree)) in
  option_map (fun c => field "keyName" (call_props c))
    (find_call ["cisco-router-instance"] cs)
    = Some (Some (VStr (Part000.sshKeyPairName p))) /\
  option_map (fun c => field "vpcId" (call_props c))
    (find_call ["transit-vpc-vpg-attachment"] cs)
    = Some (Some (VMember (Part000.sharedVpc p) "vpcId")) /\
  option_map (fun c => field "vpc" (call_props c))
    (find_call ["transit-shared-vpc-vpn-conn"] cs)
    = Some (Some (Part000.sharedVpc p)).
Proof. repeat split; vm_compute; reflexivity. Qed.

(** X14. The props of [TransitVpcConstruct] reach three fields and no
    other: two constructions that return, with any props and toolkits,
    declare the same constructs with the same props once [keyName] of the
    router instance, [vpcId] of the VPN gateway attachment and [vpc] of the
    first VPN connection are left out, every other field of these three
    declarations included; and these three fields hold the key pair name and
    the shared VPC that were passed. *)
Theorem X14_transit_props_reach_three_fields
    (p q : Part000.TransitVpcConstructProps) (tk1 tk2 : Toolkit) (t1 t2 : Tree) :
  Part000.TransitVpcConstruct p tk1 empty_tree = (t1, inr tt) ->
  Part000.TransitVpcConstruct q tk2 empty_tree = (t2, inr tt) ->
  map without_props_fields (headers t1) = map without_props_fields (headers t2) /\
  option_map (fun c => field "keyName" (call_props c))
    (find_call ["cisco-router-instance"] (headers t1))
    = Some (Some (VStr (Part000.sshKeyPairName p))) /\
  option_map (fun c => field "vpcId" (call_props c))
    (find_call ["transit-vpc-vpg-attachment"] (headers t1))
    = Some (Some (VMember (Part000.sharedVpc p) "vpcId")) /\
  option_map (fun c => field "vpc" (call_props c))
    (find_call ["transit-shared-vpc-vpn-conn"] (headers t1))
    = Some (Some (Part000.sharedVpc p)).
Proof.
  intros E1 E2.
  apply (normal_return_of _ tk1 t1 (faithful_TransitVpcConstruct p)) in E1.
  apply (normal_return_of _ tk2 t2 (faithful_TransitVpcConstruct q)) in E2.
  subst t1 t2. split; [apply transit_without_props | apply transit_props_fields].
Qed.

Lemma X14_transit_props_reach_three_fields_witness :
  Part000.TransitVpcConstruct
    (Part000.mkTransitProps "public-ssh-key-pair" (VRef ["SharedVpc"]))
    accept_all empty_tree
  = (fst (Part000.TransitVpcConstruct
            (Part000.mkTransitProps "public-ssh-key-pair" (VRef ["SharedVpc"]))
            accept_all empty_tree), inr tt) /\
  Part000.TransitVpcConstruct
    (Part000.mkTransitProps "other-key" (VRef ["OtherVpc"]))
    accept_all empty_tree
  = (fst (Part000.TransitVpcConstruct
            (Part000.mkTransitProps "other-key" (VRef ["OtherVpc"]))
            accept_all empty_tree), inr tt) /\
  option_map (fun c => field "keyName" (call_props c))
    (find_call ["cisco-router-instance"]
       (headers (fst (Part000.TransitVpcConstruct
                        (Part000.mkTransitProps "public-ssh-key-pair" (VRef ["SharedVpc"]))
                        accept_all empty_tree))))
    = Some (Some (VStr "public-ssh-key-pair")).
Proof.
  split; [vm_compute; reflexivity|]. split; [vm_compute; reflexivity|].
  destruct (X14_transit_props_reach_three_fields
              (Part000.mkTransitProps "public-ssh-key-pair" (VRef ["SharedVpc"]))
              (Part000.mkTransitProps "other-key" (VRef ["OtherVpc"]))
              accept_all accept_all
              (fst (Part000.TransitVpcConstruct
                      (Part000.mkTransitProps "public-ssh-key-pair" (VRef ["SharedVpc"]))
                      accept_all empty_tree))
              (fst (Part000.TransitVpcConstruct
                      (Part000.mkTransitProps "other-key" (VRef ["OtherVpc"]))
                      accept_all empty_tree)))
    as (_ & H & _); [vm_compute; reflexivity | vm_compute; reflexivity |].
  exact H.
Defined.
